(** * The update client of the Mender device agent (client.go)

    A shallow embedding of [client.go]: construction of the plain and the
    TLS-secured client, the update check ([GetScheduledUpdate] with
    [processUpdateResponse]) and the download guard ([FetchUpdate]).

    What the Go code does to the outside world is kept explicit.  A [World]
    holds the response-body streams that are alive (a heap of streams,
    addressed by handle) and the trace of every call the client makes into
    the logger and into the Go packages it imports.  Every function of the
    source that logs, reads or closes something is a computation in the
    state monad [M] over [World].  The packages themselves (net/http,
    encoding/json, io/ioutil, crypto/x509, crypto/tls) are not part of the
    repository: a [Platform] gives their answers, and every theorem holds
    for every platform. *)

From Stdlib Require Import ZArith String Ascii List Bool Lia.
From Stdlib Require Strings.Byte.
From stdpp Require Import base option gmap strings list.

Local Open Scope string_scope.
Local Open Scope Z_scope.

(** ** Go values *)

(** A Go [error].  [errors.New s] is [errorString s]; errors made by the
    imported packages (a [*url.Error] of the transport, a [*os.PathError] of
    the file system, a read error of a body) are [foreignError], tagged with
    the package they come from. *)
Inductive error : Type :=
| errorString (s : string)
| foreignError (pkg : string) (s : string).

Definition errors_New (s : string) : error := errorString s.

Global Instance error_eq_dec : EqDecision error.
Proof. solve_decision. Defined.

(** A call that yields a value or an error, never both. *)
Inductive result (A : Type) : Type :=
| Ok (a : A)
| Err (e : error).
Arguments Ok {A} a.
Arguments Err {A} e.

(** [[]byte]. *)
Abbreviation bytes := (list Init.Byte.byte).

Global Instance byte_eq_dec : EqDecision Init.Byte.byte :=
  Strings.Byte.byte_eq_dec.

(** Go's [byte(x)]: the low eight bits. *)
Definition byte_chr (x : Z) : ascii := ascii_of_N (Z.to_N (Z.land x 255)).

Definition runeError : Z := 0xFFFD.

Definition encode3 (r : Z) : string :=
  String (byte_chr (Z.lor 0xE0 (Z.shiftr r 12)))
    (String (byte_chr (Z.lor 0x80 (Z.land (Z.shiftr r 6) 0x3F)))
       (String (byte_chr (Z.lor 0x80 (Z.land r 0x3F))) "")).

Definition encode4 (r : Z) : string :=
  String (byte_chr (Z.lor 0xF0 (Z.shiftr r 18)))
    (String (byte_chr (Z.lor 0x80 (Z.land (Z.shiftr r 12) 0x3F)))
       (String (byte_chr (Z.lor 0x80 (Z.land (Z.shiftr r 6) 0x3F)))
          (String (byte_chr (Z.lor 0x80 (Z.land r 0x3F))) ""))).

(** The UTF-8 encoding of a rune (runtime [encoderune]); a negative rune,
    one above U+10FFFF and a surrogate are encoded as U+FFFD. *)
Definition encoderune (r : Z) : string :=
  if r <? 0 then encode3 runeError
  else if r <=? 0x7F then String (byte_chr r) ""
  else if r <=? 0x7FF then
    String (byte_chr (Z.lor 0xC0 (Z.shiftr r 6)))
      (String (byte_chr (Z.lor 0x80 (Z.land r 0x3F))) "")
  else if (0x10FFFF <? r) || ((0xD800 <=? r) && (r <=? 0xDFFF)) then
    encode3 runeError
  else if r <=? 0xFFFF then encode3 r
  else encode4 r.

(** The conversion [string(v)] of an [int64]: the UTF-8 encoding of the code
    point [v] (runtime [intstring]), not its decimal digits. *)
Definition string_of_int64 (v : Z) : string :=
  if (v <? - 2 ^ 31) || (2 ^ 31 <=? v) then encoderune runeError
  else encoderune v.

(** ** The data of client.go *)

Definition minimumImageSize : Z := 4096.

Definition updateResponseHaveUpdate : Z := 200.
Definition updateResponseNoUpdates : Z := 204.
Definition updateResponseError : Z := 404.

Definition errorLoadingClientCertificate : error :=
  errors_New "Failed to load certificate and key".
Definition errorNoServerCertificateFound : error :=
  errors_New "No server certificate is provided, use -trusted-certs with a proper certificate.".
Definition errorAddingServerCertificateToPool : error :=
  errors_New "Error adding trusted server certificate to pool.".

(** [UpdateResponse], with its anonymous struct [Image]. *)
Record UpdateResponse_Image : Type := mkImage {
  URI : string;
  Checksum : string;
  Image_ID : string
}.

Record UpdateResponse : Type := mkUpdateResponse {
  Image : UpdateResponse_Image;
  ID : string
}.

(** [new(UpdateResponse)]: every field is the empty string. *)
Definition new_UpdateResponse : UpdateResponse :=
  mkUpdateResponse (mkImage "" "" "") "".

Record httpsClientConfig : Type := mkConfig {
  certFile : string;
  certKey : string;
  serverCert : string
}.

Global Instance httpsClientConfig_eq_dec : EqDecision httpsClientConfig.
Proof. solve_decision. Defined.

(** [httpsClientConfig{}]. *)
Definition empty_httpsClientConfig : httpsClientConfig := mkConfig "" "" "".

(** ** What the imported packages hand over *)

Record x509_Certificate : Type := mkX509 {
  Raw : bytes;
  RawSubject : bytes
}.

Global Instance x509_Certificate_eq_dec : EqDecision x509_Certificate.
Proof. solve_decision. Defined.

(** [x509.CertPool]: the certificates it holds, without duplicates. *)
Record x509_CertPool : Type := mkPool { pool_certs : list x509_Certificate }.

Definition x509_NewCertPool : x509_CertPool := mkPool [].

(** [CertPool.AddCert]: a certificate that is in the pool is not added. *)
Definition AddCert (s : x509_CertPool) (cert : x509_Certificate) : x509_CertPool :=
  if existsb (fun c => bool_decide (Raw c = Raw cert)) (pool_certs s) then s
  else mkPool (pool_certs s ++ [cert]).

Definition Subjects (s : x509_CertPool) : list bytes :=
  map RawSubject (pool_certs s).

(** [tls.Certificate]; its zero value has no chain and no key. *)
Record tls_Certificate : Type := mkTlsCert {
  Certificate_chain : list bytes;
  PrivateKey : bytes
}.

Definition zero_tls_Certificate : tls_Certificate := mkTlsCert [] [].

Record tls_Config : Type := mkTlsConfig {
  RootCAs : option x509_CertPool;
  Certificates : list tls_Certificate
}.

Record http_Transport : Type := mkTransport {
  TLSClientConfig : option tls_Config
}.

(** [http.Client]; [Transport = None] is the nil transport of
    [&http.Client{}], that is the default one. *)
Record http_Client : Type := mkHttpClient {
  Transport : option http_Transport
}.

Record http_Request : Type := mkRequest {
  Method : string;
  URL : string
}.

Definition http_MethodGet : string := "GET".

(** A response body is a stream on the heap of the [World]. *)
Definition handle : Type := nat.

(** [http.Response], the fields the client looks at. *)
Record http_Response : Type := mkResponse {
  Status : string;
  StatusCode : Z;
  ContentLength : Z;
  Body : handle
}.

(** What the server, through the transport, answers to one request: the
    head of the response and what reading its body to the end will give
    (the bytes, and the error that stops the reading, if any). *)
Record ServerReply : Type := mkReply {
  reply_Status : string;
  reply_StatusCode : Z;
  reply_ContentLength : Z;
  reply_body : bytes;
  reply_fault : option error
}.

(** The errors of [json.Unmarshal]: [*json.SyntaxError], and the others
    ([*json.UnmarshalTypeError], [*json.InvalidUnmarshalError], ...). *)
Inductive json_error : Type :=
| SyntaxError (msg : string) (Offset : Z)
| UnmarshalTypeError (msg : string)
| OtherUnmarshalError (msg : string).

(** [err.Error()]. *)
Definition json_Error (e : json_error) : string :=
  match e with
  | SyntaxError msg _ => msg
  | UnmarshalTypeError msg => msg
  | OtherUnmarshalError msg => msg
  end.

(** The packages the client imports.  [json_Unmarshal data v] is [*v] after
    the call and the error returned. *)
Class Platform : Type := {
  http_NewRequest : string → string → result http_Request;
  http_RoundTrip : http_Client → http_Request → result ServerReply;
  json_Unmarshal : bytes → UpdateResponse → UpdateResponse * option json_error;
  ioutil_ReadFile : string → result bytes;
  pem_certificates : bytes → list x509_Certificate;
  tls_LoadX509KeyPair : string → string → result tls_Certificate
}.

(** ** The world *)

Inductive Level : Type := LvlDebug | LvlInfo | LvlWarn.

(** The calls the client makes, as the trace records them. *)
Inductive Event : Type :=
| EvLog (lvl : Level) (args : list string)
| EvNewRequest (method url : string)
| EvDo (req : http_Request)
| EvReadAll (h : handle)
| EvClose (h : handle)
| EvUnmarshal (data : bytes)
| EvReadFile (path : string)
| EvAppendCertsFromPEM (pem : bytes)
| EvLoadX509KeyPair (cert key : string).

Record Stream : Type := mkStream {
  pending : bytes;
  fault : option error;
  closed : bool
}.

(** The streams alive and the trace, the latest event first. *)
Record World : Type := mkWorld {
  streams : gmap handle Stream;
  trace : list Event
}.

Definition emptyWorld : World := mkWorld ∅ [].

(** ** The state monad over the world *)

Definition M (A : Type) : Type := World → A * World.

Global Instance M_ret : MRet M := λ A (a : A) w, (a, w).
Global Instance M_bind : MBind M :=
  λ A B (k : A → M B) (m : M A) w, let '(a, w') := m w in k a w'.

Definition emit (e : Event) : M unit :=
  λ w, (tt, mkWorld (streams w) (e :: trace w)).

(** The value and the world a computation ends with. *)
Definition value {A} (m : M A) (w : World) : A := fst (m w).
Definition after {A} (m : M A) (w : World) : World := snd (m w).

(** ** The calls into the logger and the packages *)

Definition log_Debug (args : list string) : M unit := emit (EvLog LvlDebug args).
Definition log_Info (args : list string) : M unit := emit (EvLog LvlInfo args).
Definition log_Warn (args : list string) : M unit := emit (EvLog LvlWarn args).

Definition errClosedBody : error :=
  foreignError "net/http" "http: read on closed response body".
Definition errNoBody : error :=
  foreignError "net/http" "http: invalid Read on closed Body".

(** [ioutil.ReadAll(body)]: everything that is still pending on the stream and
    the error that stopped the reading, if one did; the stream is left
    drained.  A closed stream gives the error net/http gives for a body
    that carried data; the empty body of a reply without content
    ([http.NoBody]), which still reads as empty after [Close], is not told
    apart, so nothing below is stated about reading a body after it was
    closed.  A handle that points to no stream has no counterpart in Go,
    where a body is never a dangling pointer; reading it is a failed read
    as well. *)
Definition ioutil_ReadAll (h : handle) : M (bytes * option error) :=
  λ w,
    let w' := mkWorld (streams w) (EvReadAll h :: trace w) in
    match streams w !! h with
    | None => (([], Some errNoBody), w')
    | Some s =>
        if closed s then (([], Some errClosedBody), w')
        else ((pending s, fault s),
              mkWorld (<[h := mkStream [] (fault s) false]> (streams w))
                      (EvReadAll h :: trace w))
    end.

(** [body.Close()]. *)
Definition Body_Close (h : handle) : M (option error) :=
  λ w,
    (None,
     mkWorld (alter (λ s, mkStream (pending s) (fault s) true) h (streams w))
             (EvClose h :: trace w)).

Section Client.

Context {P : Platform}.

Definition NewRequest (method url : string) : M (result http_Request) :=
  emit (EvNewRequest method url);; mret (http_NewRequest method url).

(** [client.Do(req)]: one call.  What net/http does inside it (following
    redirects, sending the request again on a dead connection) belongs to
    the platform: [http_RoundTrip] is the response or the error that [Do]
    returns in the end, and [EvDo] records the call, not the traffic.  A
    response comes with a new stream for its body. *)
Definition Client_Do (client : http_Client) (req : http_Request)
  : M (result http_Response) :=
  λ w,
    let tr := EvDo req :: trace w in
    match http_RoundTrip client req with
    | Err err => (Err err, mkWorld (streams w) tr)
    | Ok rep =>
        let h : handle := fresh (dom (streams w)) in
        (Ok (mkResponse (reply_Status rep) (reply_StatusCode rep)
               (reply_ContentLength rep) h),
         mkWorld (<[h := mkStream (reply_body rep) (reply_fault rep) false]>
                    (streams w)) tr)
    end.

Definition Unmarshal (data : bytes) (v : UpdateResponse)
  : M (UpdateResponse * option json_error) :=
  emit (EvUnmarshal data);; mret (json_Unmarshal data v).

Definition ReadFile (path : string) : M (result bytes) :=
  emit (EvReadFile path);; mret (ioutil_ReadFile path).

(** [pool.AppendCertsFromPEM(pem)]: every certificate the PEM data holds is
    added to the pool. *)
Definition AppendCertsFromPEM (s : x509_CertPool) (pem : bytes)
  : M x509_CertPool :=
  emit (EvAppendCertsFromPEM pem);;
  mret (fold_left AddCert (pem_certificates pem) s).

Definition LoadX509KeyPair (cert key : string) : M (result tls_Certificate) :=
  emit (EvLoadX509KeyPair cert key);; mret (tls_LoadX509KeyPair cert key).

(** ** The clients *)

Record httpClient : Type := mkClient {
  HTTPClient : http_Client;
  minImageSize : Z
}.

Record httpsClientAuthCreds : Type := mkCreds {
  clientCert : tls_Certificate;
  trustedCerts : x509_CertPool
}.

(** [httpsClient] embeds both structs. *)
Record httpsClient : Type := mkHttpsClient {
  embedded_httpClient : httpClient;
  embedded_httpsClientAuthCreds : httpsClientAuthCreds
}.

(** A value of type [interface{}], by its dynamic type: nil, a
    [*UpdateResponse], an [io.ReadCloser] (a body), a [[]byte]. *)
Inductive iface : Type :=
| iface_nil
| iface_UpdateResponse (data : UpdateResponse)
| iface_ReadCloser (h : handle)
| iface_bytes (b : bytes).

Definition RequestProcessingFunc : Type := http_Response → M (iface * option error).

(** A value of the interface [Updater]: its dynamic type and the pointer,
    which may be nil ([None]) although the interface value is not. *)
Inductive Updater : Type :=
| Updater_httpClient (p : option httpClient)
| Updater_httpsClient (p : option httpsClient).

(** The [*httpClient] that [GetScheduledUpdate] and [FetchUpdate] run on when
    they are called through the interface; there is none behind a nil
    pointer, where the call panics. *)
Definition receiver (u : Updater) : option httpClient :=
  match u with
  | Updater_httpClient p => p
  | Updater_httpsClient p => embedded_httpClient <$> p
  end.

Definition NewHttpClient : httpClient :=
  mkClient (mkHttpClient None) minimumImageSize.

Definition initServerTrust (c : httpsClient) (conf : httpsClientConfig)
  : M (httpsClient * option error) :=
  if bool_decide (serverCert conf = "") then
    log_Warn ["Server certificate not provided. Trusting all servers."];;
    mret (c, None)
  else
    let c1 :=
      mkHttpsClient (embedded_httpClient c)
        (mkCreds (clientCert (embedded_httpsClientAuthCreds c)) x509_NewCertPool) in
    r ← ReadFile (serverCert conf);
    match r with
    | Err err => mret (c1, Some err)
    | Ok cacert =>
        pool ← AppendCertsFromPEM (trustedCerts (embedded_httpsClientAuthCreds c1)) cacert;
        let c2 :=
          mkHttpsClient (embedded_httpClient c1)
            (mkCreds (clientCert (embedded_httpsClientAuthCreds c1)) pool) in
        if bool_decide (length (Subjects (trustedCerts (embedded_httpsClientAuthCreds c2))) = 0%nat)
        then mret (c2, Some errorAddingServerCertificateToPool)
        else mret (c2, None)
    end.

Definition initClientCert (c : httpsClient) (conf : httpsClientConfig)
  : M (httpsClient * option error) :=
  if bool_decide (certFile conf = "") || bool_decide (certKey conf = "") then
    log_Warn ["No client key and certificate provided. Using auto-generated."];;
    mret (c, None)
  else
    r ← LoadX509KeyPair (certFile conf) (certKey conf);
    match r with
    | Err _ => mret (c, Some errorLoadingClientCertificate)
    | Ok cert =>
        mret (mkHttpsClient (embedded_httpClient c)
                (mkCreds cert (trustedCerts (embedded_httpsClientAuthCreds c))),
              None)
    end.

(** [NewHttpsClient]; [None] is the nil pointer it returns when the trust
    material cannot be loaded. *)
Definition NewHttpsClient (conf : httpsClientConfig) : M (option httpsClient) :=
  let client := mkHttpsClient NewHttpClient (mkCreds zero_tls_Certificate (mkPool [])) in
  '(client, err) ← initServerTrust client conf;
  match err with
  | Some _ => mret None
  | None =>
      '(client, err) ← initClientCert client conf;
      match err with
      | Some _ => mret None
      | None =>
          let transport :=
            mkTransport
              (Some (mkTlsConfig
                       (Some (trustedCerts (embedded_httpsClientAuthCreds client)))
                       [clientCert (embedded_httpsClientAuthCreds client)])) in
          mret (Some (mkHttpsClient
                        (mkClient (mkHttpClient (Some transport))
                                  (minImageSize (embedded_httpClient client)))
                        (embedded_httpsClientAuthCreds client)))
      end
  end.

Definition NewUpdater (conf : httpsClientConfig) : M Updater :=
  if bool_decide (conf = empty_httpsClientConfig) then
    mret (Updater_httpClient (Some NewHttpClient))
  else
    p ← NewHttpsClient conf;
    mret (Updater_httpsClient p).

(** ** Requests *)

Definition makeAndSendRequest (client : httpClient) (method url : string)
  : M (result http_Response) :=
  res ← NewRequest method url;
  match res with
  | Err err => mret (Err err)
  | Ok req =>
      log_Debug ["Sending HTTP ["; method; "] request: "; url];;
      Client_Do (HTTPClient client) req
  end.

(** The deferred [r.Body.Close()] runs when [process] has returned. *)
Definition GetScheduledUpdate (c : httpClient) (process : RequestProcessingFunc)
    (server : string) : M (iface * option error) :=
  r ← makeAndSendRequest c http_MethodGet server;
  match r with
  | Err err => mret (iface_nil, Some err)
  | Ok r =>
      res ← process r;
      Body_Close (Body r);;
      mret res
  end.

Definition errUnknownImageSize : error :=
  errors_New "Will not continue with unknown image size.".

Definition errImageTooSmall (minSize length : Z) : error :=
  errors_New ("Less than " +:+ string_of_int64 minSize +:+ "KiB image update (" +:+
              string_of_int64 length +:+ " bytes)? Something is wrong, aborting.").

(** The stream, the length and the error [FetchUpdate] returns; [None] is the
    nil stream. *)
Definition FetchUpdate (c : httpClient) (url : string)
  : M (option handle * Z * option error) :=
  r ← makeAndSendRequest c http_MethodGet url;
  match r with
  | Err err => mret (None, -1, Some err)
  | Ok r =>
      if ContentLength r <? 0 then
        mret (None, -1, Some errUnknownImageSize)
      else if ContentLength r <? minImageSize c then
        mret (None, -1, Some (errImageTooSmall (minImageSize c) (ContentLength r)))
      else
        mret (Some (Body r), ContentLength r, None)
  end.

(** ** The update response *)

Definition errMissingParameters : error :=
  errors_New "Missing parameters in encoded JSON response".
Definition errParsingSyntax : error :=
  errors_New "Error parsing data syntax".
Definition errParsingData (msg : string) : error :=
  errors_New ("Error parsing data: " +:+ msg).
Definition errNotAuthorized : error :=
  errors_New "Client not authorized to get update schedule.".
Definition errInvalidResponse : error :=
  errors_New "Invalid response received from server".

Definition validateGetUpdate (update : UpdateResponse) : M (option error) :=
  if bool_decide (ID update ≠ "") && bool_decide (Image_ID (Image update) ≠ "")
     && bool_decide (Checksum (Image update) ≠ "")
     && bool_decide (URI (Image update) ≠ "")
  then
    log_Info ["Received correct request for getting image from: " +:+ URI (Image update)];;
    mret None
  else mret (Some errMissingParameters).

Definition processUpdateResponse (response : http_Response)
  : M (iface * option error) :=
  log_Debug ["Received response:"; Status response];;
  '(respBody, err) ← ioutil_ReadAll (Body response);
  match err with
  | Some err => mret (iface_nil, Some err)
  | None =>
      if StatusCode response =? updateResponseHaveUpdate then
        log_Debug ["Have update available"];;
        '(data, err) ← Unmarshal respBody new_UpdateResponse;
        match err with
        | Some (SyntaxError _ _) => mret (iface_nil, Some errParsingSyntax)
        | Some err => mret (iface_nil, Some (errParsingData (json_Error err)))
        | None =>
            err ← validateGetUpdate data;
            match err with
            | Some err => mret (iface_nil, Some err)
            | None => mret (iface_UpdateResponse data, None)
            end
        end
      else if StatusCode response =? updateResponseNoUpdates then
        log_Debug ["No update available"];;
        mret (iface_nil, None)
      else if StatusCode response =? updateResponseError then
        mret (iface_nil, Some errNotAuthorized)
      else
        mret (iface_nil, Some errInvalidResponse)
  end.

End Client.

(** ** A scripted platform

    One server, one file system and one decoder with a handful of scripted
    answers, to run the client on. *)

Definition bytes_of (s : string) : bytes := list_byte_of_string s.

Fixpoint assoc {A : Type} (k : string) (l : list (string * A)) : option A :=
  match l with
  | [] => None
  | (k', a) :: l' => if bool_decide (k = k') then Some a else assoc k l'
  end.

(** A JSON string literal: the text between two double quotes. *)
Definition quoted (s : string) : string :=
  String "034"%char (s +:+ String "034"%char "").

Definition json_image (uri : string) : string :=
  "{" +:+ quoted "URI" +:+ ":" +:+ quoted uri +:+ "," +:+
  quoted "Checksum" +:+ ":" +:+ quoted "abc" +:+ "," +:+
  quoted "ID" +:+ ":" +:+ quoted "i1" +:+ "}".

Definition body_complete : string :=
  Eval cbv in
    "{" +:+ quoted "ID" +:+ ":" +:+ quoted "u1" +:+ "," +:+
    quoted "Image" +:+ ":" +:+ json_image "http://x/img" +:+ "}".
Definition body_no_uri : string :=
  Eval cbv in
    "{" +:+ quoted "ID" +:+ ":" +:+ quoted "u1" +:+ "," +:+
    quoted "Image" +:+ ":" +:+ json_image "" +:+ "}".
Definition body_not_json : string := "not json".
Definition body_wrong_type : string :=
  Eval cbv in "{" +:+ quoted "ID" +:+ ":5}".

Definition errUnexpectedEOF : error := foreignError "io" "unexpected EOF".
Definition errConnectionRefused : error :=
  foreignError "net/url" "Get http://down/update: dial tcp: connection refused".
Definition errMissingScheme : error :=
  foreignError "net/url" "parse :: missing protocol scheme".
Definition errNoSuchFile : error :=
  foreignError "os" "open /etc/mender/missing.crt: no such file or directory".

Definition scripted_replies : list (string * ServerReply) :=
  [ ("http://srv/update", mkReply "200 OK" 200 69 (bytes_of body_complete) None);
    ("http://srv/incomplete", mkReply "200 OK" 200 57 (bytes_of body_no_uri) None);
    ("http://srv/garbage", mkReply "200 OK" 200 8 (bytes_of body_not_json) None);
    ("http://srv/mistyped", mkReply "200 OK" 200 8 (bytes_of body_wrong_type) None);
    ("http://srv/none", mkReply "204 No Content" 204 0 [] None);
    ("http://srv/denied", mkReply "404 Not Found" 404 18 (bytes_of "404 page not found") None);
    ("http://srv/truncated",
       mkReply "404 Not Found" 404 100 (bytes_of "404 pa") (Some errUnexpectedEOF));
    ("http://srv/broken", mkReply "500 Internal Server Error" 500 0 [] None);
    ("http://srv/image", mkReply "200 OK" 200 5000 (bytes_of "image") None);
    ("http://srv/small", mkReply "200 OK" 200 100 (bytes_of "oops") None);
    ("http://srv/chunked", mkReply "200 OK" 200 (-1) (bytes_of "image") None) ].

Definition scripted_decoder : list (string * (UpdateResponse * option json_error)) :=
  [ (body_complete,
       (mkUpdateResponse (mkImage "http://x/img" "abc" "i1") "u1", None));
    (body_no_uri, (mkUpdateResponse (mkImage "" "abc" "i1") "u1", None));
    (body_wrong_type,
       (new_UpdateResponse,
        Some (UnmarshalTypeError
                "json: cannot unmarshal number into Go value of type string"))) ].

Definition scripted_files : list (string * bytes) :=
  [ ("/etc/mender/server.crt", bytes_of "-----BEGIN CERTIFICATE-----");
    ("/etc/mender/notes.txt", bytes_of "no certificate in here") ].

Definition scripted : Platform := {|
  http_NewRequest method url :=
    if bool_decide (url = ":") then Err errMissingScheme
    else Ok (mkRequest method url);
  http_RoundTrip client req :=
    match assoc (URL req) scripted_replies with
    | Some rep => Ok rep
    | None => Err errConnectionRefused
    end;
  json_Unmarshal data v :=
    match assoc (string_of_list_byte data) scripted_decoder with
    | Some out => out
    | None => (v, Some (SyntaxError "invalid character 'o' in literal null (expecting 'u')" 2))
    end;
  ioutil_ReadFile path :=
    match assoc path scripted_files with
    | Some data => Ok data
    | None => Err errNoSuchFile
    end;
  pem_certificates pem :=
    if bool_decide (pem = bytes_of "-----BEGIN CERTIFICATE-----")
    then [mkX509 (bytes_of "der") (bytes_of "CN=srv")] else [];
  tls_LoadX509KeyPair cert key :=
    Err (foreignError "crypto/tls" "tls: failed to find any PEM data in certificate input")
|}.

(** Responses as the scripted server gives them, each with its body as the
    only stream of the world. *)
Definition one_stream (body : bytes) (readErr : option error) : World :=
  mkWorld {[ 0%nat := mkStream body readErr false ]} [].

Definition response_update : http_Response := mkResponse "200 OK" 200 69 0%nat.
Definition response_garbage : http_Response := mkResponse "200 OK" 200 8 0%nat.
Definition response_none : http_Response := mkResponse "204 No Content" 204 0 0%nat.
Definition response_truncated : http_Response :=
  mkResponse "404 Not Found" 404 100 0%nat.
Definition response_image : http_Response := mkResponse "200 OK" 200 5000 0%nat.
Definition response_broken : http_Response :=
  mkResponse "500 Internal Server Error" 500 0 0%nat.
Definition response_unavailable : http_Response :=
  mkResponse "503 Service Unavailable" 503 0 0%nat.

Definition descriptor_u1 : UpdateResponse :=
  mkUpdateResponse (mkImage "http://x/img" "abc" "i1") "u1".

(** The client [NewHttpsClient] starts from. *)
Definition zero_httpsClient : httpsClient :=
  mkHttpsClient NewHttpClient (mkCreds zero_tls_Certificate (mkPool [])).

Definition conf_missing_file : httpsClientConfig :=
  mkConfig "" "" "/etc/mender/missing.crt".
Definition conf_no_certificate : httpsClientConfig :=
  mkConfig "" "" "/etc/mender/notes.txt".

(** The update check and the download of the plain client, run from the
    empty world. *)
Definition check (url : string) : iface * option error :=
  value (@GetScheduledUpdate scripted NewHttpClient (@processUpdateResponse scripted) url)
        emptyWorld.

Definition fetch (url : string) : option handle * Z * option error :=
  value (@FetchUpdate scripted NewHttpClient url) emptyWorld.

Definition conf_with_certificate : httpsClientConfig :=
  mkConfig "" "" "/etc/mender/server.crt".
Definition conf_bad_keypair : httpsClientConfig :=
  mkConfig "/etc/mender/client.crt" "/etc/mender/client.key" "".

(** The TLS client of [conf_with_certificate] on the scripted platform. *)
Definition scripted_pool : x509_CertPool :=
  mkPool [mkX509 (bytes_of "der") (bytes_of "CN=srv")].
Definition scripted_tls_client : httpsClient :=
  mkHttpsClient
    (mkClient
       (mkHttpClient
          (Some (mkTransport
                   (Some (mkTlsConfig (Some scripted_pool) [zero_tls_Certificate])))))
       4096)
    (mkCreds zero_tls_Certificate scripted_pool).

(** A processing function that hands out the body of the response. *)
Definition leak_body : RequestProcessingFunc :=
  λ r, mret (iface_ReadCloser (Body r), None).

(** ** Counting in the trace *)

Fixpoint count (p : Event → bool) (tr : list Event) : nat :=
  match tr with
  | [] => 0%nat
  | e :: tr' => ((if p e then 1 else 0) + count p tr')%nat
  end.

(** A call of [client.Do]. *)
Definition is_Do (e : Event) : bool :=
  match e with EvDo _ => true | _ => false end.

(** A call of the decoder. *)
Definition is_Unmarshal (e : Event) : bool :=
  match e with EvUnmarshal _ => true | _ => false end.


(** * Properties *)

(** Running a client function: its definition and the monad are unfolded and
    the projections of the worlds it builds are computed. *)
Ltac run_client :=
  cbv [value after processUpdateResponse validateGetUpdate GetScheduledUpdate
       FetchUpdate makeAndSendRequest NewRequest Client_Do Unmarshal
       log_Debug log_Info log_Warn emit ioutil_ReadAll Body_Close
       mbind mret M_bind M_ret] in *;
  cbn [streams trace fst snd] in *.

(** Case analysis on the stream a body handle points to. *)
Ltac case_stream w h :=
  let s := fresh "s" in
  let Hs := fresh "Hs" in
  let Hc := fresh "Hc" in
  destruct (streams w !! h) as [s|] eqn:Hs;
  [destruct (closed s) eqn:Hc|];
  cbn [fst snd] in *.

Section Properties.

Context {P : Platform}.

(** What reading a body returns depends on the streams only, not on the
    trace. *)
Lemma ioutil_ReadAll_trace (h : handle) (w : World) (tr : list Event) :
  value (ioutil_ReadAll h) (mkWorld (streams w) tr) = value (ioutil_ReadAll h) w.
Proof. run_client. case_stream w h; reflexivity. Qed.

(** The descriptor is complete: its four strings are not empty. *)
Definition complete (update : UpdateResponse) : Prop :=
  ID update ≠ "" ∧ Image_ID (Image update) ≠ "" ∧
  Checksum (Image update) ≠ "" ∧ URI (Image update) ≠ "".

Lemma validateGetUpdate_complete (update : UpdateResponse) (w : World) :
  complete update → value (validateGetUpdate update) w = None.
Proof.
  intros (H1 & H2 & H3 & H4). run_client.
  rewrite !bool_decide_eq_true_2 by assumption. reflexivity.
Qed.

Lemma validateGetUpdate_incomplete (update : UpdateResponse) (w : World) :
  ¬ complete update →
  validateGetUpdate update w = (Some errMissingParameters, w).
Proof.
  intros Hn. run_client.
  destruct (bool_decide (ID update ≠ "")) eqn:E1;
    destruct (bool_decide (Image_ID (Image update) ≠ "")) eqn:E2;
    destruct (bool_decide (Checksum (Image update) ≠ "")) eqn:E3;
    destruct (bool_decide (URI (Image update) ≠ "")) eqn:E4;
    try reflexivity.
  exfalso. apply Hn. unfold complete.
  apply bool_decide_eq_true_1 in E1, E2, E3, E4. auto.
Qed.

(** C1.  On status 200, once the body is read and decoded, the check
    returns the descriptor without error exactly when its four strings [ID],
    [Image.ID], [Image.Checksum] and [Image.URI] are not empty; when one of
    them is empty it returns nil with the error of missing parameters. *)
Theorem processUpdateResponse_complete_iff (response : http_Response)
    (w : World) (body : bytes) (data : UpdateResponse) :
  StatusCode response = updateResponseHaveUpdate →
  value (ioutil_ReadAll (Body response)) w = (body, None) →
  json_Unmarshal body new_UpdateResponse = (data, None) →
  (value (processUpdateResponse response) w = (iface_UpdateResponse data, None)
     ↔ ID data ≠ "" ∧ Image_ID (Image data) ≠ "" ∧
       Checksum (Image data) ≠ "" ∧ URI (Image data) ≠ "") ∧
  (ID data = "" ∨ Image_ID (Image data) = "" ∨
   Checksum (Image data) = "" ∨ URI (Image data) = "" →
   value (processUpdateResponse response) w = (iface_nil, Some errMissingParameters)) ∧
  (value (validateGetUpdate data) w = None ↔ complete data).
Proof.
  intros Hcode Hread Hjson.
  assert (Hrun : ∀ w', value (processUpdateResponse response) w =
            match value (validateGetUpdate data) w' with
            | Some err => (iface_nil, Some err)
            | None => (iface_UpdateResponse data, None)
            end).
  { intros w'. run_client. rewrite Hcode.
    case_stream w (Body response); try discriminate.
    injection Hread as -> Hfault. rewrite Hfault. cbn.
    rewrite Hjson.
    destruct (bool_decide (ID data ≠ "") && bool_decide (Image_ID (Image data) ≠ "")
              && bool_decide (Checksum (Image data) ≠ "")
              && bool_decide (URI (Image data) ≠ "")); reflexivity. }
  assert (Hdec : complete data ∨ ¬ complete data).
  { unfold complete. destruct (decide (ID data = "")); [right; tauto|].
    destruct (decide (Image_ID (Image data) = "")); [right; tauto|].
    destruct (decide (Checksum (Image data) = "")); [right; tauto|].
    destruct (decide (URI (Image data) = "")); [right; tauto|].
    left. auto. }
  split; [|split].
  - rewrite (Hrun w). fold (complete data).
    destruct Hdec as [Hc|Hc].
    + rewrite validateGetUpdate_complete by assumption. tauto.
    + unfold value at 1. rewrite validateGetUpdate_incomplete by assumption.
      cbn. split; [discriminate | tauto].
  - intros Hempty. rewrite (Hrun w).
    unfold value at 1. rewrite validateGetUpdate_incomplete; [reflexivity|].
    unfold complete. intuition congruence.
  - destruct Hdec as [Hc|Hc].
    + rewrite validateGetUpdate_complete by assumption. tauto.
    + unfold value. rewrite validateGetUpdate_incomplete by assumption.
      cbn. split; [discriminate | tauto].
Qed.

(** C2 (amended).  Reading the body comes first: when it fails, the read
    error is returned whatever the status code.  When the body is read to
    the end, the status code alone decides: on 204 nil is returned without
    error and nothing is decoded (the trace gains the two log lines and the
    read, no call of the decoder); on 404 the error of the client that is
    not authorized; on any code other than 200, 204 and 404 the error of the
    invalid response. *)
Theorem processUpdateResponse_by_status (response : http_Response)
    (w : World) (body : bytes) (readErr : option error) :
  value (ioutil_ReadAll (Body response)) w = (body, readErr) →
  (∀ err, readErr = Some err →
     value (processUpdateResponse response) w = (iface_nil, Some err)) ∧
  (readErr = None → StatusCode response = updateResponseNoUpdates →
     value (processUpdateResponse response) w = (iface_nil, None) ∧
     trace (after (processUpdateResponse response) w) =
       EvLog LvlDebug ["No update available"]
       :: EvReadAll (Body response)
       :: EvLog LvlDebug ["Received response:"; Status response]
       :: trace w) ∧
  (readErr = None → StatusCode response = updateResponseError →
     value (processUpdateResponse response) w = (iface_nil, Some errNotAuthorized)) ∧
  (readErr = None →
     StatusCode response ≠ updateResponseHaveUpdate →
     StatusCode response ≠ updateResponseNoUpdates →
     StatusCode response ≠ updateResponseError →
     value (processUpdateResponse response) w = (iface_nil, Some errInvalidResponse)).
Proof.
  intros Hread. run_client.
  case_stream w (Body response); injection Hread as <- <-;
    (split; [intros err Herr; try discriminate; rewrite Herr; reflexivity|]);
    (split; [intros Hnone; try discriminate; rewrite Hnone; intros ->; cbn; auto|]);
    (split; [intros Hnone; try discriminate; rewrite Hnone; intros ->; reflexivity|]);
    intros Hnone; try discriminate; rewrite Hnone; intros H200 H204 H404;
    apply Z.eqb_neq in H200, H204, H404; rewrite H200, H204, H404; reflexivity.
Qed.

(** The text of the syntax error is never the text of a generic decode
    error. *)
Lemma errParsingSyntax_not_errParsingData (msg : string) :
  errParsingSyntax ≠ errParsingData msg.
Proof. unfold errParsingSyntax, errParsingData, errors_New. cbn. discriminate. Qed.

(** C4.  On status 200, when the body is read but [json.Unmarshal] fails: a
    [*json.SyntaxError] gives the error of the data syntax, every other
    failure gives the generic parsing error that carries the decoder's
    message, and the two errors are never equal. *)
Theorem decode_failure_kinds (response : http_Response) (w : World)
    (body : bytes) (data : UpdateResponse) (e : json_error) :
  StatusCode response = updateResponseHaveUpdate →
  value (ioutil_ReadAll (Body response)) w = (body, None) →
  json_Unmarshal body new_UpdateResponse = (data, Some e) →
  (∀ msg off, e = SyntaxError msg off →
     value (processUpdateResponse response) w = (iface_nil, Some errParsingSyntax)) ∧
  ((∀ msg off, e ≠ SyntaxError msg off) →
     value (processUpdateResponse response) w =
       (iface_nil, Some (errParsingData (json_Error e)))) ∧
  (∀ msg, errParsingSyntax ≠ errParsingData msg).
Proof.
  intros Hcode Hread Hjson.
  assert (Hrun : value (processUpdateResponse response) w =
            match e with
            | SyntaxError _ _ => (iface_nil, Some errParsingSyntax)
            | _ => (iface_nil, Some (errParsingData (json_Error e)))
            end).
  { run_client. rewrite Hcode.
    case_stream w (Body response); try discriminate.
    injection Hread as -> Hfault. rewrite Hfault. cbn.
    rewrite Hjson. destruct e; reflexivity. }
  split; [|split].
  - intros msg off ->. exact Hrun.
  - intros Hother. rewrite Hrun. destruct e; try reflexivity.
    exfalso. eapply Hother. reflexivity.
  - exact errParsingSyntax_not_errParsingData.
Qed.

(** ** Construction *)

Ltac run_construction :=
  cbv [value after NewUpdater NewHttpsClient initServerTrust initClientCert
       ReadFile AppendCertsFromPEM LoadX509KeyPair log_Warn emit
       mbind mret M_bind M_ret] in *;
  cbn [streams trace fst snd embedded_httpClient embedded_httpsClientAuthCreds
       clientCert trustedCerts minImageSize HTTPClient] in *.

(** Every client that construction hands out carries the threshold
    [minimumImageSize]. *)
Lemma NewHttpsClient_minImageSize (conf : httpsClientConfig) (w : World)
    (c : httpsClient) :
  value (NewHttpsClient conf) w = Some c →
  minImageSize (embedded_httpClient c) = minimumImageSize.
Proof.
  run_construction. intros Hc.
  repeat case_match; cbn [fst snd] in *; simplify_eq; reflexivity.
Qed.

Lemma NewUpdater_minImageSize (conf : httpsClientConfig) (w : World)
    (c : httpClient) :
  receiver (value (NewUpdater conf) w) = Some c →
  minImageSize c = minimumImageSize.
Proof.
  unfold NewUpdater, value. case_bool_decide.
  - cbn. intros [= <-]. reflexivity.
  - cbv [mbind M_bind mret M_ret].
    destruct (NewHttpsClient conf w) as [[p|] w'] eqn:Hnew; cbn; [|discriminate].
    intros [= <-]. apply (NewHttpsClient_minImageSize conf w).
    unfold value. rewrite Hnew. reflexivity.
Qed.

(** ** Requests *)

(** What [FetchUpdate] returns, from what the request returned. *)
Lemma FetchUpdate_value (c : httpClient) (url : string) (w : World) :
  FetchUpdate c url w =
    (match value (makeAndSendRequest c http_MethodGet url) w with
     | Err err => (None, -1, Some err)
     | Ok r =>
         if ContentLength r <? 0 then (None, -1, Some errUnknownImageSize)
         else if ContentLength r <? minImageSize c then
           (None, -1, Some (errImageTooSmall (minImageSize c) (ContentLength r)))
         else (Some (Body r), ContentLength r, None)
     end,
     after (makeAndSendRequest c http_MethodGet url) w).
Proof.
  cbv [FetchUpdate value after mbind M_bind mret M_ret].
  destruct (makeAndSendRequest c http_MethodGet url w) as [[r|err] w'];
    cbn [fst snd]; repeat case_match; reflexivity.
Qed.

(** A request that fails creates no stream and reads none. *)
Lemma makeAndSendRequest_failure (c : httpClient) (method url : string)
    (w : World) (err : error) :
  value (makeAndSendRequest c method url) w = Err err →
  streams (after (makeAndSendRequest c method url) w) = streams w ∧
  ∀ h, EvReadAll h ∈ trace (after (makeAndSendRequest c method url) w) →
       EvReadAll h ∈ trace w.
Proof.
  run_client.
  destruct (http_NewRequest method url) as [req|e1]; cbn [fst snd streams trace].
  - destruct (http_RoundTrip (HTTPClient c) req) as [rep|e2];
      cbn [fst snd streams trace]; [discriminate|].
    intros _. split; [reflexivity|].
    intros h Hin. rewrite !elem_of_cons in Hin.
    destruct Hin as [Hin|[Hin|[Hin|Hin]]]; try discriminate. exact Hin.
  - intros _. split; [reflexivity|].
    intros h Hin. rewrite elem_of_cons in Hin.
    destruct Hin as [Hin|Hin]; try discriminate. exact Hin.
Qed.

(** C3.  For a client that construction hands out and a request that got a
    response, whatever its status, the declared length alone decides what
    [FetchUpdate] returns: below 0 the error of the unknown size, with the
    nil stream; from 0 up to 4095 the error of the image that is too small
    (the length is compared with 4096 as it is); from 4096 on the body of
    the response, that length and no error.  The two errors are never the
    same: the text of the second starts with [Less than], whatever the
    threshold and the length, and the text of the first does not. *)
Theorem FetchUpdate_by_length (conf : httpsClientConfig) (w0 : World)
    (c : httpClient) (url : string) (w : World) (r : http_Response) :
  receiver (value (NewUpdater conf) w0) = Some c →
  value (makeAndSendRequest c http_MethodGet url) w = Ok r →
  (ContentLength r < 0 →
     value (FetchUpdate c url) w = (None, -1, Some errUnknownImageSize)) ∧
  (0 ≤ ContentLength r < 4096 →
     value (FetchUpdate c url) w =
       (None, -1, Some (errImageTooSmall 4096 (ContentLength r)))) ∧
  (4096 ≤ ContentLength r →
     value (FetchUpdate c url) w = (Some (Body r), ContentLength r, None)) ∧
  (∀ minSize length,
     errImageTooSmall minSize length ≠ errUnknownImageSize ∧
     ∃ rest, errImageTooSmall minSize length = errors_New ("Less than " +:+ rest)) ∧
  errUnknownImageSize = errors_New "Will not continue with unknown image size.".
Proof.
  intros Hc Hr. apply NewUpdater_minImageSize in Hc.
  unfold value in *. rewrite FetchUpdate_value. unfold value. rewrite Hr, Hc. cbn [fst].
  unfold minimumImageSize.
  split; [|split; [|split; [|split; [|reflexivity]]]]; [| | |intros minSize len; split;
    [unfold errImageTooSmall, errUnknownImageSize, errors_New; cbn; discriminate
    |eexists; reflexivity]]; intros Hlen.
  - apply Z.ltb_lt in Hlen. rewrite Hlen. reflexivity.
  - destruct Hlen as [Hge Hlt]. apply Z.ltb_ge in Hge. apply Z.ltb_lt in Hlt.
    rewrite Hge, Hlt. reflexivity.
  - assert (Hge : 0 ≤ ContentLength r) by lia.
    apply Z.ltb_ge in Hge, Hlen. rewrite Hge, Hlen. reflexivity.
Qed.

(** C10.  Whenever [FetchUpdate] returns an error, it returns the nil stream
    and the length -1 with it; the error is the one of the request, the one
    of the unknown size or the one of the image that is too small. *)
Theorem FetchUpdate_error_exit (c : httpClient) (url : string) (w : World)
    (err : error) :
  snd (value (FetchUpdate c url) w) = Some err →
  value (FetchUpdate c url) w = (None, -1, Some err) ∧
  (value (makeAndSendRequest c http_MethodGet url) w = Err err ∨
   ∃ r, value (makeAndSendRequest c http_MethodGet url) w = Ok r ∧
        ((ContentLength r < 0 ∧ err = errUnknownImageSize) ∨
         (0 ≤ ContentLength r < minImageSize c ∧
          err = errImageTooSmall (minImageSize c) (ContentLength r)))).
Proof.
  unfold value at 1 2. rewrite FetchUpdate_value. cbn [fst].
  destruct (value (makeAndSendRequest c http_MethodGet url) w) as [r|e].
  - destruct (ContentLength r <? 0) eqn:Hneg.
    + cbn. intros [= <-]. split; [reflexivity|]. right. exists r.
      apply Z.ltb_lt in Hneg. auto.
    + destruct (ContentLength r <? minImageSize c) eqn:Hsmall.
      * cbn. intros [= <-]. split; [reflexivity|]. right. exists r.
        apply Z.ltb_ge in Hneg. apply Z.ltb_lt in Hsmall. auto.
      * cbn. discriminate.
  - cbn. intros [= <-]. auto.
Qed.


(** ** The update check *)

(** Case analysis on every test the code makes, the worlds computed. *)
Ltac crunch :=
  repeat (case_match; cbn [fst snd streams trace] in *; simplify_eq);
  cbn [fst snd streams trace] in *.

(** A request that got a response: the request was built, the round trip
    gave a reply, and the body of the reply is a new open stream. *)
Lemma makeAndSendRequest_success (c : httpClient) (method url : string)
    (w : World) (r : http_Response) :
  value (makeAndSendRequest c method url) w = Ok r →
  ∃ req rep,
    http_NewRequest method url = Ok req ∧
    http_RoundTrip (HTTPClient c) req = Ok rep ∧
    StatusCode r = reply_StatusCode rep ∧
    ContentLength r = reply_ContentLength rep ∧
    streams (after (makeAndSendRequest c method url) w) =
      <[Body r := mkStream (reply_body rep) (reply_fault rep) false]> (streams w).
Proof.
  run_client.
  destruct (http_NewRequest method url) as [req|e1] eqn:Hreq;
    cbn [fst snd streams trace]; [|discriminate].
  destruct (http_RoundTrip (HTTPClient c) req) as [rep|e2] eqn:Hrep;
    cbn [fst snd streams trace]; [|discriminate].
  intros [= <-]. exists req, rep. repeat split; first [assumption | reflexivity].
Qed.

(** Reading an open stream gives what is pending on it. *)
Lemma ioutil_ReadAll_open (h : handle) (w : World) (s : Stream) :
  streams w !! h = Some s → closed s = false →
  value (ioutil_ReadAll h) w = (pending s, fault s).
Proof. intros Hs Hc. run_client. rewrite Hs, Hc. reflexivity. Qed.

(** [GetScheduledUpdate] on a request that got a response: [process] runs
    on it and the body is closed after that. *)
Lemma GetScheduledUpdate_run (c : httpClient) (process : RequestProcessingFunc)
    (url : string) (w : World) (r : http_Response) :
  value (makeAndSendRequest c http_MethodGet url) w = Ok r →
  GetScheduledUpdate c process url w =
    (value (process r) (after (makeAndSendRequest c http_MethodGet url) w),
     after (Body_Close (Body r))
       (after (process r) (after (makeAndSendRequest c http_MethodGet url) w))).
Proof.
  cbv [GetScheduledUpdate value after mbind M_bind mret M_ret Body_Close].
  destruct (makeAndSendRequest c http_MethodGet url w) as [[r'|e] w'];
    cbn [fst snd]; [|discriminate].
  intros [= ->]. destruct (process r w') as [res w'']. reflexivity.
Qed.

(** [processUpdateResponse] takes no stream away. *)
Lemma processUpdateResponse_keeps_stream (response : http_Response) (w : World) :
  is_Some (streams w !! Body response) →
  is_Some (streams (after (processUpdateResponse response) w) !! Body response).
Proof.
  intros [s Hs]. run_client. rewrite Hs.
  destruct (closed s); crunch; rewrite ?lookup_insert_eq, ?Hs; eauto.
Qed.

(** What [processUpdateResponse] returns is nil or a [*UpdateResponse]. *)
Lemma processUpdateResponse_result (response : http_Response) (w : World) :
  fst (value (processUpdateResponse response) w) = iface_nil ∨
  ∃ data, fst (value (processUpdateResponse response) w) = iface_UpdateResponse data.
Proof.
  run_client. crunch; eauto.
Qed.

(** What [processUpdateResponse] returns is decided by the status code and
    by what reading the body gives. *)
Lemma processUpdateResponse_value_eq (r1 r2 : http_Response) (w1 w2 : World) :
  StatusCode r1 = StatusCode r2 →
  value (ioutil_ReadAll (Body r1)) w1 = value (ioutil_ReadAll (Body r2)) w2 →
  value (processUpdateResponse r1) w1 = value (processUpdateResponse r2) w2.
Proof.
  intros Hcode Hread. run_client. rewrite Hcode.
  crunch; try first [reflexivity | congruence];
    match goal with
    | Ha : json_Unmarshal ?a _ = (_, None), Hb : json_Unmarshal ?b _ = (_, None),
      He : ?a = ?b |- _ =>
        rewrite He in Ha; rewrite Ha in Hb; injection Hb as ->
    end;
    match goal with
    | Ht : ?x = true, Hf : ?x = false |- _ => rewrite Ht in Hf; discriminate
    end.
Qed.

(** A request that is built and answered returns a response with the status
    code of the reply, and reading its body gives the body of the reply. *)
Lemma makeAndSendRequest_reply (c : httpClient) (method url : string)
    (w : World) (req : http_Request) (rep : ServerReply) :
  http_NewRequest method url = Ok req →
  http_RoundTrip (HTTPClient c) req = Ok rep →
  ∃ r, value (makeAndSendRequest c method url) w = Ok r ∧
       StatusCode r = reply_StatusCode rep ∧
       value (ioutil_ReadAll (Body r)) (after (makeAndSendRequest c method url) w) =
         (reply_body rep, reply_fault rep).
Proof.
  intros Hreq Hrep. run_client. rewrite Hreq. cbn [fst snd streams trace].
  rewrite Hrep. cbn [fst snd streams trace].
  eexists. split; [reflexivity|]. split; [reflexivity|].
  cbn [Body]. rewrite lookup_insert_eq. reflexivity.
Qed.

Lemma GetScheduledUpdate_value (c : httpClient) (process : RequestProcessingFunc)
    (url : string) (w : World) (r : http_Response) :
  value (makeAndSendRequest c http_MethodGet url) w = Ok r →
  value (GetScheduledUpdate c process url) w =
    value (process r) (after (makeAndSendRequest c http_MethodGet url) w).
Proof.
  intros Hreq. unfold value at 1.
  rewrite (GetScheduledUpdate_run c process url w r Hreq). reflexivity.
Qed.

Lemma GetScheduledUpdate_after (c : httpClient) (process : RequestProcessingFunc)
    (url : string) (w : World) (r : http_Response) :
  value (makeAndSendRequest c http_MethodGet url) w = Ok r →
  after (GetScheduledUpdate c process url) w =
    mkWorld
      (alter (λ s, mkStream (pending s) (fault s) true) (Body r)
         (streams (after (process r) (after (makeAndSendRequest c http_MethodGet url) w))))
      (EvClose (Body r)
       :: trace (after (process r) (after (makeAndSendRequest c http_MethodGet url) w))).
Proof.
  intros Hreq. unfold after at 1.
  rewrite (GetScheduledUpdate_run c process url w r Hreq). reflexivity.
Qed.

(** C8.  In the update check, once the request got a response, its body is
    closed when the check returns, whatever the processing returned: the
    stream is on the heap and closed, closing it is the last event of the
    trace, and what the check returns is never the body.  The closing does
    not depend on the processing function. *)
Theorem update_check_releases_body (c : httpClient) (url : string) (w : World)
    (r : http_Response) :
  value (makeAndSendRequest c http_MethodGet url) w = Ok r →
  (∃ s, streams (after (GetScheduledUpdate c processUpdateResponse url) w) !! Body r
          = Some s ∧ closed s = true) ∧
  head (trace (after (GetScheduledUpdate c processUpdateResponse url) w))
    = Some (EvClose (Body r)) ∧
  (∀ h, fst (value (GetScheduledUpdate c processUpdateResponse url) w)
          ≠ iface_ReadCloser h) ∧
  (∀ process : RequestProcessingFunc,
     head (trace (after (GetScheduledUpdate c process url) w))
       = Some (EvClose (Body r)) ∧
     ∀ s, streams (after (GetScheduledUpdate c process url) w) !! Body r = Some s →
          closed s = true).
Proof.
  intros Hreq.
  assert (Hgen : ∀ process : RequestProcessingFunc,
            head (trace (after (GetScheduledUpdate c process url) w))
              = Some (EvClose (Body r)) ∧
            ∀ s, streams (after (GetScheduledUpdate c process url) w) !! Body r = Some s →
                 closed s = true).
  { intros process.
    rewrite (GetScheduledUpdate_after c process url w r Hreq).
    cbn [streams trace]. split; [reflexivity|].
    intros s. rewrite lookup_alter_eq.
    destruct (streams _ !! Body r) as [s0|]; cbn; [|discriminate].
    intros [= <-]. reflexivity. }
  split; [|split; [|split]].
  - destruct (makeAndSendRequest_success c http_MethodGet url w r Hreq)
      as (req & rep & _ & _ & _ & _ & Hstreams).
    destruct (processUpdateResponse_keeps_stream r
                (after (makeAndSendRequest c http_MethodGet url) w)) as [s0 Hs0].
    { rewrite Hstreams, lookup_insert_eq. eauto. }
    rewrite (GetScheduledUpdate_after c processUpdateResponse url w r Hreq).
    cbn [streams trace]. rewrite lookup_alter_eq, Hs0. cbn. eauto.
  - apply Hgen.
  - intros h.
    rewrite (GetScheduledUpdate_value c processUpdateResponse url w r Hreq).
    destruct (processUpdateResponse_result r
                (after (makeAndSendRequest c http_MethodGet url) w))
      as [Hnil|[data Hdata]]; [rewrite Hnil|rewrite Hdata]; discriminate.
  - exact Hgen.
Qed.

(** C9.  Two update checks whose requests are answered with the same status
    code and the same body return the same, whatever the worlds they start
    in, the clients and the addresses; so a check that is repeated on the
    world the first one left returns what the first one returned.  For
    [processUpdateResponse] itself: the status code and what reading the
    body gives decide what it returns. *)
Theorem same_response_same_outcome (c1 c2 : httpClient) (url1 url2 : string)
    (req1 req2 : http_Request) (rep1 rep2 : ServerReply) (w1 w2 : World) :
  http_NewRequest http_MethodGet url1 = Ok req1 →
  http_RoundTrip (HTTPClient c1) req1 = Ok rep1 →
  http_NewRequest http_MethodGet url2 = Ok req2 →
  http_RoundTrip (HTTPClient c2) req2 = Ok rep2 →
  reply_StatusCode rep1 = reply_StatusCode rep2 →
  reply_body rep1 = reply_body rep2 →
  reply_fault rep1 = reply_fault rep2 →
  value (GetScheduledUpdate c1 processUpdateResponse url1) w1 =
    value (GetScheduledUpdate c2 processUpdateResponse url2) w2 ∧
  value (GetScheduledUpdate c1 processUpdateResponse url1)
        (after (GetScheduledUpdate c1 processUpdateResponse url1) w1) =
    value (GetScheduledUpdate c1 processUpdateResponse url1) w1 ∧
  (∀ (r1 r2 : http_Response) (v1 v2 : World),
     StatusCode r1 = StatusCode r2 →
     value (ioutil_ReadAll (Body r1)) v1 = value (ioutil_ReadAll (Body r2)) v2 →
     value (processUpdateResponse r1) v1 = value (processUpdateResponse r2) v2).
Proof.
  intros Hreq1 Hrep1 Hreq2 Hrep2 Hcode Hbody Hfault.
  assert (Hany : ∀ (c c' : httpClient) (url url' : string) (req req' : http_Request)
                   (rep rep' : ServerReply) (w w' : World),
            http_NewRequest http_MethodGet url = Ok req →
            http_RoundTrip (HTTPClient c) req = Ok rep →
            http_NewRequest http_MethodGet url' = Ok req' →
            http_RoundTrip (HTTPClient c') req' = Ok rep' →
            reply_StatusCode rep = reply_StatusCode rep' →
            reply_body rep = reply_body rep' →
            reply_fault rep = reply_fault rep' →
            value (GetScheduledUpdate c processUpdateResponse url) w =
              value (GetScheduledUpdate c' processUpdateResponse url') w').
  { intros c c' url url' req req' rep rep' w w' Hq Hp Hq' Hp' Hc Hb Hf.
    destruct (makeAndSendRequest_reply c http_MethodGet url w req rep Hq Hp)
      as (r & Hr & Hrc & Hrb).
    destruct (makeAndSendRequest_reply c' http_MethodGet url' w' req' rep' Hq' Hp')
      as (r' & Hr' & Hrc' & Hrb').
    rewrite (GetScheduledUpdate_value c processUpdateResponse url w r Hr).
    rewrite (GetScheduledUpdate_value c' processUpdateResponse url' w' r' Hr').
    apply processUpdateResponse_value_eq; congruence. }
  split; [|split].
  - eapply Hany; eassumption.
  - eapply Hany; try eassumption; reflexivity.
  - exact processUpdateResponse_value_eq.
Qed.

(** C5 (amended).  With a server certificate path that is not empty:
    when the file cannot be read, [initServerTrust] fails with the error of
    the reading; when the file is read but holds no certificate, it fails
    with [errorAddingServerCertificateToPool].  In both cases
    [NewHttpsClient] returns nil, and [NewUpdater] an [Updater] that holds
    this nil pointer, behind which there is no client. *)
Theorem unusable_server_certificate (conf : httpsClientConfig) (w : World)
    (c : httpsClient) :
  serverCert conf ≠ "" →
  (∀ err, ioutil_ReadFile (serverCert conf) = Err err →
     snd (value (initServerTrust c conf) w) = Some err) ∧
  (∀ pem, ioutil_ReadFile (serverCert conf) = Ok pem →
     pem_certificates pem = [] →
     snd (value (initServerTrust c conf) w) = Some errorAddingServerCertificateToPool) ∧
  ((∃ err, ioutil_ReadFile (serverCert conf) = Err err) ∨
   (∃ pem, ioutil_ReadFile (serverCert conf) = Ok pem ∧ pem_certificates pem = []) →
   value (NewHttpsClient conf) w = None ∧
   value (NewUpdater conf) w = Updater_httpsClient None ∧
   receiver (value (NewUpdater conf) w) = None).
Proof.
  intros Hpath.
  assert (Hne : bool_decide (serverCert conf = "") = false)
    by (apply bool_decide_eq_false_2; assumption).
  assert (Hconf : bool_decide (conf = empty_httpsClientConfig) = false).
  { apply bool_decide_eq_false_2. intros ->. apply Hpath. reflexivity. }
  split; [|split].
  - intros err Herr. run_construction. rewrite Hne, Herr. reflexivity.
  - intros pem Hpem Hcerts. run_construction. rewrite Hne, Hpem, Hcerts.
    reflexivity.
  - intros Hbad.
    assert (Hnil : value (NewHttpsClient conf) w = None).
    { run_construction. rewrite Hne.
      destruct Hbad as [[err Herr]|(pem & Hpem & Hcerts)].
      - rewrite Herr. reflexivity.
      - rewrite Hpem, Hcerts. reflexivity. }
    assert (Hupd : value (NewUpdater conf) w = Updater_httpsClient None).
    { unfold NewUpdater. rewrite Hconf.
      cbv [value mbind M_bind mret M_ret] in *.
      destruct (NewHttpsClient conf w) as [p w']. cbn [fst] in *.
      rewrite Hnil. reflexivity. }
    split; [exact Hnil|]. split; [exact Hupd|]. rewrite Hupd. reflexivity.
Qed.

(** C7.  From the empty configuration [NewUpdater] returns, on every
    platform and in every world, a plain client: a [*httpClient] that is not
    nil, with the default transport (no TLS configuration) and the threshold
    [minimumImageSize]; nothing is read, loaded or logged. *)
Theorem NewUpdater_empty_config (w : World) :
  NewUpdater empty_httpsClientConfig w =
    (Updater_httpClient (Some NewHttpClient), w) ∧
  receiver (value (NewUpdater empty_httpsClientConfig) w) = Some NewHttpClient ∧
  Transport (HTTPClient NewHttpClient) = None ∧
  minImageSize NewHttpClient = 4096.
Proof. repeat split. Qed.

End Properties.

(** * The properties on the scripted platform *)

Lemma processUpdateResponse_complete_iff_witness :
  value (@processUpdateResponse scripted response_update)
        (one_stream (bytes_of body_complete) None)
    = (iface_UpdateResponse descriptor_u1, None).
Proof.
  apply (@processUpdateResponse_complete_iff scripted response_update
           (one_stream (bytes_of body_complete) None)
           (bytes_of body_complete) descriptor_u1);
    [reflexivity | reflexivity | reflexivity | repeat split; discriminate].
Defined.

Lemma processUpdateResponse_by_status_witness :
  value (@processUpdateResponse scripted response_none) (one_stream [] None)
    = (iface_nil, None).
Proof.
  apply (@processUpdateResponse_by_status scripted response_none
           (one_stream [] None) [] None); reflexivity.
Defined.

(** The body of a 404 response breaks off: the check returns the read error,
    not the error of the client that is not authorized.  And two responses
    with the different codes 500 and 503 get one and the same error: the
    error of the invalid response carries no status code. *)
Lemma processUpdateResponse_by_status_counterexample :
  (StatusCode response_truncated = updateResponseError ∧
   value (@processUpdateResponse scripted response_truncated)
         (one_stream (bytes_of "404 pa") (Some errUnexpectedEOF))
     = (iface_nil, Some errUnexpectedEOF) ∧
   value (@processUpdateResponse scripted response_truncated)
         (one_stream (bytes_of "404 pa") (Some errUnexpectedEOF))
     ≠ (iface_nil, Some errNotAuthorized)) ∧
  (StatusCode response_broken ≠ StatusCode response_unavailable ∧
   value (@processUpdateResponse scripted response_broken) (one_stream [] None)
     = (iface_nil, Some (errors_New "Invalid response received from server")) ∧
   value (@processUpdateResponse scripted response_unavailable) (one_stream [] None)
     = value (@processUpdateResponse scripted response_broken) (one_stream [] None)).
Proof.
  split.
  - split; [reflexivity|]. split; [reflexivity|]. discriminate.
  - split; [discriminate|]. split; reflexivity.
Qed.

Lemma FetchUpdate_by_length_witness :
  value (@FetchUpdate scripted NewHttpClient "http://srv/image") emptyWorld
    = (Some 0%nat, 5000, None).
Proof.
  apply (@FetchUpdate_by_length scripted empty_httpsClientConfig emptyWorld
           NewHttpClient "http://srv/image" emptyWorld response_image);
    [reflexivity | reflexivity | cbn; lia].
Defined.

Lemma decode_failure_kinds_witness :
  value (@processUpdateResponse scripted response_garbage)
        (one_stream (bytes_of body_not_json) None)
    = (iface_nil, Some errParsingSyntax).
Proof.
  eapply (@decode_failure_kinds scripted response_garbage
            (one_stream (bytes_of body_not_json) None)
            (bytes_of body_not_json) new_UpdateResponse
            (SyntaxError "invalid character 'o' in literal null (expecting 'u')" 2));
    reflexivity.
Defined.

(** The file of the server certificate does not exist: [initServerTrust]
    fails with the error of the file system, which is not
    [errorAddingServerCertificateToPool]. *)
Lemma unreadable_certificate_counterexample :
  @ioutil_ReadFile scripted (serverCert conf_missing_file) = Err errNoSuchFile ∧
  snd (value (@initServerTrust scripted zero_httpsClient conf_missing_file) emptyWorld)
    = Some errNoSuchFile ∧
  snd (value (@initServerTrust scripted zero_httpsClient conf_missing_file) emptyWorld)
    ≠ Some errorAddingServerCertificateToPool.
Proof. split; [reflexivity|]. split; [reflexivity|]. discriminate. Qed.

Lemma unusable_server_certificate_witness :
  snd (value (@initServerTrust scripted zero_httpsClient conf_no_certificate) emptyWorld)
    = Some errorAddingServerCertificateToPool ∧
  value (@NewUpdater scripted conf_no_certificate) emptyWorld = Updater_httpsClient None.
Proof.
  destruct (@unusable_server_certificate scripted conf_no_certificate emptyWorld
              zero_httpsClient) as (_ & Hpem & Hnil); [discriminate|].
  split.
  - apply (Hpem (bytes_of "no certificate in here")); reflexivity.
  - apply Hnil. right. exists (bytes_of "no certificate in here").
    split; reflexivity.
Defined.


Lemma update_check_releases_body_witness :
  ∃ s, streams (after (@GetScheduledUpdate scripted NewHttpClient
                         (@processUpdateResponse scripted) "http://srv/update")
                 emptyWorld) !! Body response_update = Some s ∧
       closed s = true.
Proof.
  apply (@update_check_releases_body scripted NewHttpClient "http://srv/update"
           emptyWorld response_update); reflexivity.
Defined.

Lemma same_response_same_outcome_witness :
  value (@GetScheduledUpdate scripted NewHttpClient (@processUpdateResponse scripted)
           "http://srv/update") emptyWorld
    = value (@GetScheduledUpdate scripted NewHttpClient (@processUpdateResponse scripted)
               "http://srv/update")
            (one_stream (bytes_of body_not_json) None).
Proof.
  apply (@same_response_same_outcome scripted NewHttpClient NewHttpClient
           "http://srv/update" "http://srv/update"
           (mkRequest "GET" "http://srv/update") (mkRequest "GET" "http://srv/update")
           (mkReply "200 OK" 200 69 (bytes_of body_complete) None)
           (mkReply "200 OK" 200 69 (bytes_of body_complete) None)
           emptyWorld (one_stream (bytes_of body_not_json) None));
    reflexivity.
Defined.

Lemma FetchUpdate_error_exit_witness :
  value (@FetchUpdate scripted NewHttpClient "http://srv/small") emptyWorld
    = (None, -1, Some (errImageTooSmall 4096 100)).
Proof.
  apply (@FetchUpdate_error_exit scripted NewHttpClient "http://srv/small" emptyWorld
           (errImageTooSmall 4096 100)); reflexivity.
Defined.

(** * The client on the scripted platform

    The cases the repository's documentation lists for the update check and
    the download, run from the empty world. *)

Example check_update :
  check "http://srv/update" = (iface_UpdateResponse descriptor_u1, None).
Proof. reflexivity. Qed.

Example check_incomplete :
  check "http://srv/incomplete" = (iface_nil, Some errMissingParameters).
Proof. reflexivity. Qed.

Example check_garbage :
  check "http://srv/garbage" = (iface_nil, Some errParsingSyntax).
Proof. reflexivity. Qed.

Example check_mistyped :
  check "http://srv/mistyped" =
    (iface_nil,
     Some (errParsingData "json: cannot unmarshal number into Go value of type string")).
Proof. reflexivity. Qed.

Example check_none : check "http://srv/none" = (iface_nil, None).
Proof. reflexivity. Qed.

Example check_denied : check "http://srv/denied" = (iface_nil, Some errNotAuthorized).
Proof. reflexivity. Qed.

Example check_broken : check "http://srv/broken" = (iface_nil, Some errInvalidResponse).
Proof. reflexivity. Qed.

Example check_truncated :
  check "http://srv/truncated" = (iface_nil, Some errUnexpectedEOF).
Proof. reflexivity. Qed.

Example check_bad_address : check ":" = (iface_nil, Some errMissingScheme).
Proof. reflexivity. Qed.

Example fetch_chunked : fetch "http://srv/chunked" = (None, -1, Some errUnknownImageSize).
Proof. reflexivity. Qed.

Example fetch_small :
  fetch "http://srv/small" = (None, -1, Some (errImageTooSmall 4096 100)).
Proof. reflexivity. Qed.

Example fetch_image : fetch "http://srv/image" = (Some 0%nat, 5000, None).
Proof. reflexivity. Qed.

(** [string(4096)] is the three bytes of U+1000, [string(100)] the letter d. *)
Example string_of_int64_4096 :
  string_of_int64 4096 =
    String (ascii_of_nat 225) (String (ascii_of_nat 128) (String (ascii_of_nat 128) "")).
Proof. reflexivity. Qed.

Example string_of_int64_100 : string_of_int64 100 = "d".
Proof. reflexivity. Qed.

(** A server certificate that holds a certificate gives a TLS client whose
    pool holds it. *)
Example NewUpdater_with_certificate :
  (λ c, Subjects (trustedCerts (embedded_httpsClientAuthCreds c))) <$>
    (match value (@NewUpdater scripted (mkConfig "" "" "/etc/mender/server.crt")) emptyWorld with
     | Updater_httpsClient p => p
     | Updater_httpClient _ => None
     end)
  = Some [bytes_of "CN=srv"].
Proof. reflexivity. Qed.

(** * Further properties of the construction *)

Ltac run_build :=
  cbv [value after NewUpdater NewHttpsClient initServerTrust initClientCert
       ReadFile AppendCertsFromPEM LoadX509KeyPair log_Warn emit
       mbind mret M_bind M_ret] in *;
  cbn [streams trace fst snd embedded_httpClient embedded_httpsClientAuthCreds
       clientCert trustedCerts minImageSize HTTPClient] in *.

Section Construction.

Context {P : Platform}.

(** [AddCert] takes nothing out of a pool. *)
Lemma AddCert_length (s : x509_CertPool) (cert : x509_Certificate) :
  (length (pool_certs s) ≤ length (pool_certs (AddCert s cert)))%nat.
Proof.
  unfold AddCert. destruct (existsb _ _); cbn; [lia|].
  rewrite length_app. cbn. lia.
Qed.

Lemma fold_AddCert_length (certs : list x509_Certificate) (s : x509_CertPool) :
  (length (pool_certs s) ≤ length (pool_certs (fold_left AddCert certs s)))%nat.
Proof.
  revert s. induction certs as [|cert certs IH]; intros s; cbn; [lia|].
  etransitivity; [apply (AddCert_length s cert)|apply IH].
Qed.

(** A new pool to which PEM data is appended has no subject exactly when
    the data holds no certificate. *)
Lemma Subjects_appended_empty (certs : list x509_Certificate) :
  length (Subjects (fold_left AddCert certs x509_NewCertPool)) = 0%nat ↔ certs = [].
Proof.
  unfold Subjects. rewrite length_map. split.
  - destruct certs as [|cert certs]; [reflexivity|]. cbn.
    pose proof (fold_AddCert_length certs (AddCert x509_NewCertPool cert)) as Hle.
    cbn in Hle. intros Hz. rewrite Hz in Hle. lia.
  - intros ->. reflexivity.
Qed.

(** A certificate of a pool that grew by [AddCert] was in the pool or was
    added. *)
Lemma fold_AddCert_sound (certs : list x509_Certificate) (s : x509_CertPool)
    (cert : x509_Certificate) :
  cert ∈ pool_certs (fold_left AddCert certs s) →
  cert ∈ pool_certs s ∨ cert ∈ certs.
Proof.
  revert s. induction certs as [|c0 certs IH]; intros s; cbn; [auto|].
  intros Hin. destruct (IH _ Hin) as [Hs|Hc].
  - unfold AddCert in Hs. destruct (existsb _ _); cbn in Hs; [auto|].
    rewrite elem_of_app, list_elem_of_singleton in Hs.
    destruct Hs as [Hs| ->]; [auto|]. right. left.
  - right. right. exact Hc.
Qed.

(** [AddCert] and the appending keep what the pool holds. *)
Lemma fold_AddCert_keeps (certs : list x509_Certificate) (s : x509_CertPool)
    (cert : x509_Certificate) :
  cert ∈ pool_certs s → cert ∈ pool_certs (fold_left AddCert certs s).
Proof.
  revert s. induction certs as [|c0 certs IH]; intros s; cbn; [auto|].
  intros Hin. apply IH. unfold AddCert. destruct (existsb _ _); cbn; [auto|].
  rewrite elem_of_app. auto.
Qed.

(** Every certificate that is appended is in the pool afterwards, itself or
    one with the same encoding. *)
Lemma fold_AddCert_complete (certs : list x509_Certificate) (s : x509_CertPool)
    (cert : x509_Certificate) :
  cert ∈ certs →
  ∃ cert', cert' ∈ pool_certs (fold_left AddCert certs s) ∧ Raw cert' = Raw cert.
Proof.
  revert s. induction certs as [|c0 certs IH]; intros s; cbn.
  - intros Hin. apply elem_of_nil in Hin. destruct Hin.
  - rewrite elem_of_cons. intros [->|Hin]; [|apply IH; exact Hin].
    unfold AddCert. destruct (existsb _ _) eqn:Hex.
    + apply existsb_exists in Hex. destruct Hex as (cert' & Hin' & Heq).
      apply bool_decide_eq_true_1 in Heq. exists cert'. split; [|exact Heq].
      apply fold_AddCert_keeps. apply list_elem_of_In. exact Hin'.
    + exists c0. split; [|reflexivity].
      apply fold_AddCert_keeps. cbn. rewrite elem_of_app, list_elem_of_singleton. auto.
Qed.

(** [NewHttpsClient], step by step. *)
Lemma NewHttpsClient_steps (conf : httpsClientConfig) (w : World) :
  NewHttpsClient conf w =
    let '((c1, e1), w1) := initServerTrust zero_httpsClient conf w in
    match e1 with
    | Some _ => (None, w1)
    | None =>
        let '((c2, e2), w2) := initClientCert c1 conf w1 in
        match e2 with
        | Some _ => (None, w2)
        | None =>
            (Some (mkHttpsClient
                     (mkClient
                        (mkHttpClient
                           (Some (mkTransport
                                    (Some (mkTlsConfig
                                             (Some (trustedCerts (embedded_httpsClientAuthCreds c2)))
                                             [clientCert (embedded_httpsClientAuthCreds c2)])))))
                        (minImageSize (embedded_httpClient c2)))
                     (embedded_httpsClientAuthCreds c2)), w2)
        end
    end.
Proof.
  cbv [NewHttpsClient mbind M_bind mret M_ret zero_httpsClient].
  destruct (initServerTrust _ conf w) as [[c1 [e1|]] w1]; [reflexivity|].
  destruct (initClientCert c1 conf w1) as [[c2 [e2|]] w2]; reflexivity.
Qed.

(** What [initServerTrust] returns, case by case. *)
Lemma initServerTrust_cases (c : httpsClient) (conf : httpsClientConfig) (w : World) :
  (serverCert conf = "" ∧
   initServerTrust c conf w =
     ((c, None),
      mkWorld (streams w)
        (EvLog LvlWarn ["Server certificate not provided. Trusting all servers."]
         :: trace w))) ∨
  (serverCert conf ≠ "" ∧ ∃ err,
   ioutil_ReadFile (serverCert conf) = Err err ∧
   initServerTrust c conf w =
     ((mkHttpsClient (embedded_httpClient c)
         (mkCreds (clientCert (embedded_httpsClientAuthCreds c)) x509_NewCertPool),
       Some err),
      mkWorld (streams w) (EvReadFile (serverCert conf) :: trace w))) ∨
  (serverCert conf ≠ "" ∧ ∃ pem,
   ioutil_ReadFile (serverCert conf) = Ok pem ∧
   initServerTrust c conf w =
     ((mkHttpsClient (embedded_httpClient c)
         (mkCreds (clientCert (embedded_httpsClientAuthCreds c))
            (fold_left AddCert (pem_certificates pem) x509_NewCertPool)),
       if bool_decide (pem_certificates pem = [])
       then Some errorAddingServerCertificateToPool else None),
      mkWorld (streams w)
        (EvAppendCertsFromPEM pem :: EvReadFile (serverCert conf) :: trace w))).
Proof.
  run_build. case_bool_decide as Hpath; [left; auto|right].
  destruct (ioutil_ReadFile (serverCert conf)) as [pem|err] eqn:Hread.
  - right. split; [assumption|]. exists pem. split; [reflexivity|].
    cbn [fst snd streams trace].
    case_bool_decide as Hlen; rewrite Subjects_appended_empty in Hlen.
    + rewrite bool_decide_eq_true_2 by assumption. reflexivity.
    + rewrite bool_decide_eq_false_2 by assumption. reflexivity.
  - left. split; [assumption|]. exists err. split; reflexivity.
Qed.

(** What [initClientCert] returns, case by case. *)
Lemma initClientCert_cases (c : httpsClient) (conf : httpsClientConfig) (w : World) :
  ((certFile conf = "" ∨ certKey conf = "") ∧
   initClientCert c conf w =
     ((c, None),
      mkWorld (streams w)
        (EvLog LvlWarn ["No client key and certificate provided. Using auto-generated."]
         :: trace w))) ∨
  (certFile conf ≠ "" ∧ certKey conf ≠ "" ∧ ∃ err,
   tls_LoadX509KeyPair (certFile conf) (certKey conf) = Err err ∧
   initClientCert c conf w =
     ((c, Some errorLoadingClientCertificate),
      mkWorld (streams w)
        (EvLoadX509KeyPair (certFile conf) (certKey conf) :: trace w))) ∨
  (certFile conf ≠ "" ∧ certKey conf ≠ "" ∧ ∃ cert,
   tls_LoadX509KeyPair (certFile conf) (certKey conf) = Ok cert ∧
   initClientCert c conf w =
     ((mkHttpsClient (embedded_httpClient c)
         (mkCreds cert (trustedCerts (embedded_httpsClientAuthCreds c))), None),
      mkWorld (streams w)
        (EvLoadX509KeyPair (certFile conf) (certKey conf) :: trace w))).
Proof.
  run_build.
  case_bool_decide as Hf; [left; auto|].
  case_bool_decide as Hk; [left; auto|]. right. cbn [orb].
  destruct (tls_LoadX509KeyPair (certFile conf) (certKey conf)) as [cert|err] eqn:Hload.
  - right. repeat split; try assumption. exists cert. split; reflexivity.
  - left. repeat split; try assumption. exists err. split; reflexivity.
Qed.

(** The three cases of [initServerTrust] and of [initClientCert], in a
    proof about [NewHttpsClient]. *)
Ltac trust_cases c conf w :=
  let Hp := fresh "Hpath" in
  let Hr := fresh "Hread" in
  let Heq := fresh "Htrust" in
  let err := fresh "err" in
  let pem := fresh "pem" in
  destruct (initServerTrust_cases c conf w)
    as [[Hp Heq]|[(Hp & err & Hr & Heq)|(Hp & pem & Hr & Heq)]];
  rewrite Heq; cbn [fst snd streams trace].

Ltac cert_cases c conf w :=
  let Hp := fresh "Hpaths" in
  let Hf := fresh "Hfile" in
  let Hk := fresh "Hkey" in
  let Hl := fresh "Hload" in
  let Heq := fresh "Hcert" in
  let err := fresh "err" in
  let cert := fresh "cert" in
  destruct (initClientCert_cases c conf w)
    as [[Hp Heq]|[(Hf & Hk & err & Hl & Heq)|(Hf & Hk & cert & Hl & Heq)]];
  rewrite Heq; cbn [fst snd streams trace].

(** [NewHttpsClient] returns a client exactly when both steps succeed. *)
Lemma NewHttpsClient_succeeds (conf : httpsClientConfig) (w : World) :
  is_Some (value (NewHttpsClient conf) w) ↔
    (serverCert conf = "" ∨
     ∃ pem, ioutil_ReadFile (serverCert conf) = Ok pem ∧ pem_certificates pem ≠ []) ∧
    (certFile conf = "" ∨ certKey conf = "" ∨
     ∃ cert, tls_LoadX509KeyPair (certFile conf) (certKey conf) = Ok cert).
Proof.
  unfold value. rewrite NewHttpsClient_steps.
  trust_cases zero_httpsClient conf w.
  - match goal with |- context [initClientCert ?c conf ?w1] => cert_cases c conf w1 end.
    + split; [intros _|eauto]. split; [auto|]. destruct Hpaths; auto.
    + split; [intros [? [=]]|]. intros [_ [?|[?|[cert Hc]]]]; congruence.
    + split; [intros _|eauto]. split; [auto|]. right. right. eauto.
  - split; [intros [? [=]]|]. intros [[?|(pem & Hpem & _)] _]; congruence.
  - case_bool_decide as Hcerts; cbn [fst snd streams trace].
    + split; [intros [? [=]]|]. intros [[?|(pem' & Hpem & Hne)] _]; congruence.
    + match goal with |- context [initClientCert ?c conf ?w1] => cert_cases c conf w1 end.
      * split; [intros _|eauto]. split; [eauto|]. destruct Hpaths; auto.
      * split; [intros [? [=]]|]. intros [_ [?|[?|[cert Hc]]]]; congruence.
      * split; [intros _|eauto]. split; [eauto|]. right. right. eauto.
Qed.

(** X1.  Construction yields a client exactly when the trust material can be
    loaded: the server certificate path is empty or its file is read and
    holds a certificate, and one of the client paths is empty or the key
    pair loads.  This holds for [NewHttpsClient] and for the client behind
    the [Updater] of [NewUpdater], the empty configuration included. *)
Theorem construction_succeeds_iff (conf : httpsClientConfig) (w : World) :
  (is_Some (value (NewHttpsClient conf) w) ↔
     (serverCert conf = "" ∨
      ∃ pem, ioutil_ReadFile (serverCert conf) = Ok pem ∧ pem_certificates pem ≠ []) ∧
     (certFile conf = "" ∨ certKey conf = "" ∨
      ∃ cert, tls_LoadX509KeyPair (certFile conf) (certKey conf) = Ok cert)) ∧
  (is_Some (receiver (value (NewUpdater conf) w)) ↔
     (serverCert conf = "" ∨
      ∃ pem, ioutil_ReadFile (serverCert conf) = Ok pem ∧ pem_certificates pem ≠ []) ∧
     (certFile conf = "" ∨ certKey conf = "" ∨
      ∃ cert, tls_LoadX509KeyPair (certFile conf) (certKey conf) = Ok cert)).
Proof.
  split; [apply NewHttpsClient_succeeds|].
  unfold NewUpdater. case_bool_decide as Hconf.
  - subst conf. cbn. split; [intros _; auto|eauto].
  - rewrite <- (NewHttpsClient_succeeds conf w). cbv [value mbind M_bind mret M_ret].
    destruct (NewHttpsClient conf w) as [[c|] w']; cbn; split; intros [? [=]]; eauto.
Qed.

(** What a client that [NewHttpsClient] built is made of. *)
Lemma NewHttpsClient_built (conf : httpsClientConfig) (w : World) (c : httpsClient) :
  value (NewHttpsClient conf) w = Some c →
  ∃ pool cert,
    c = mkHttpsClient
          (mkClient
             (mkHttpClient (Some (mkTransport (Some (mkTlsConfig (Some pool) [cert])))))
             minimumImageSize)
          (mkCreds cert pool) ∧
    ((serverCert conf = "" ∧ pool = mkPool []) ∨
     (serverCert conf ≠ "" ∧ ∃ pem,
        ioutil_ReadFile (serverCert conf) = Ok pem ∧ pem_certificates pem ≠ [] ∧
        pool = fold_left AddCert (pem_certificates pem) x509_NewCertPool)) ∧
    (((certFile conf = "" ∨ certKey conf = "") ∧ cert = zero_tls_Certificate) ∨
     (certFile conf ≠ "" ∧ certKey conf ≠ "" ∧
      tls_LoadX509KeyPair (certFile conf) (certKey conf) = Ok cert)).
Proof.
  unfold value. rewrite NewHttpsClient_steps.
  trust_cases zero_httpsClient conf w; try discriminate.
  - match goal with |- context [initClientCert ?c conf ?w1] => cert_cases c conf w1 end;
      try discriminate; intros [= <-]; cbn; eexists _, _;
      (split; [reflexivity|]); split; auto.
  - case_bool_decide as Hcerts; cbn [fst snd streams trace]; try discriminate.
    match goal with |- context [initClientCert ?c conf ?w1] => cert_cases c conf w1 end;
      try discriminate; intros [= <-]; cbn; eexists _, _;
      (split; [reflexivity|]); split; eauto 7.
Qed.

(** X2.  A client that [NewHttpsClient] returns carries the threshold
    [minimumImageSize], and its transport is configured from its own
    credentials: the root pool of the TLS configuration is its trusted pool
    and the only certificate presented is its client certificate.  Without a
    server certificate path the root pool is an empty pool, not a nil one;
    without one of the client paths the certificate is the zero value;
    otherwise it is the key pair that was loaded. *)
Theorem NewHttpsClient_shape (conf : httpsClientConfig) (w : World) (c : httpsClient) :
  value (NewHttpsClient conf) w = Some c →
  minImageSize (embedded_httpClient c) = minimumImageSize ∧
  Transport (HTTPClient (embedded_httpClient c)) =
    Some (mkTransport
            (Some (mkTlsConfig
                     (Some (trustedCerts (embedded_httpsClientAuthCreds c)))
                     [clientCert (embedded_httpsClientAuthCreds c)]))) ∧
  (serverCert conf = "" →
     trustedCerts (embedded_httpsClientAuthCreds c) = mkPool []) ∧
  (certFile conf = "" ∨ certKey conf = "" →
     clientCert (embedded_httpsClientAuthCreds c) = zero_tls_Certificate) ∧
  (certFile conf ≠ "" → certKey conf ≠ "" →
     tls_LoadX509KeyPair (certFile conf) (certKey conf)
       = Ok (clientCert (embedded_httpsClientAuthCreds c))).
Proof.
  intros Hc. destruct (NewHttpsClient_built conf w c Hc)
    as (pool & cert & -> & Hpool & Hcert). cbn.
  split; [reflexivity|]. split; [reflexivity|]. split; [|split].
  - intros Hp. destruct Hpool as [[_ ->]|[Hne _]]; [reflexivity|contradiction].
  - intros Hp. destruct Hcert as [[_ ->]|(Hf & Hk & _)]; [reflexivity|].
    destruct Hp; contradiction.
  - intros Hf Hk. destruct Hcert as [[[?|?] _]|(_ & _ & Hload)];
      [contradiction|contradiction|exact Hload].
Qed.

(** X3.  With a server certificate path, the pool of a client that
    [NewHttpsClient] returns holds the certificates of that file and no
    other: every certificate of the pool is one of the file, every
    certificate of the file is in the pool (itself or one with the same
    encoding), and the pool is not empty. *)
Theorem trusted_certificates_from_file (conf : httpsClientConfig) (w : World)
    (c : httpsClient) :
  value (NewHttpsClient conf) w = Some c →
  serverCert conf ≠ "" →
  ∃ pem, ioutil_ReadFile (serverCert conf) = Ok pem ∧
    Subjects (trustedCerts (embedded_httpsClientAuthCreds c)) ≠ [] ∧
    (∀ cert, cert ∈ pool_certs (trustedCerts (embedded_httpsClientAuthCreds c)) →
             cert ∈ pem_certificates pem) ∧
    (∀ cert, cert ∈ pem_certificates pem →
             ∃ cert', cert' ∈ pool_certs (trustedCerts (embedded_httpsClientAuthCreds c)) ∧
                      Raw cert' = Raw cert).
Proof.
  intros Hc Hpath. destruct (NewHttpsClient_built conf w c Hc)
    as (pool & cert & -> & Hpool & _). cbn.
  destruct Hpool as [[He _]|(_ & pem & Hread & Hne & ->)]; [contradiction|].
  exists pem. split; [exact Hread|]. split; [|split].
  - intros Hnil. apply Hne. apply Subjects_appended_empty.
    rewrite Hnil. reflexivity.
  - intros cert0 Hin. apply fold_AddCert_sound in Hin.
    destruct Hin as [Hin|Hin]; [|exact Hin]. cbn in Hin.
    apply elem_of_nil in Hin. destruct Hin.
  - intros cert0 Hin. apply fold_AddCert_complete. exact Hin.
Qed.

(** X4.  A TLS client that is built without server certificate, or without
    client key pair, is announced in the log: the warning of the missing
    material is in the trace. *)
Theorem missing_material_is_logged (conf : httpsClientConfig) (w : World)
    (c : httpsClient) :
  value (NewHttpsClient conf) w = Some c →
  (serverCert conf = "" →
     EvLog LvlWarn ["Server certificate not provided. Trusting all servers."]
       ∈ trace (after (NewHttpsClient conf) w)) ∧
  (certFile conf = "" ∨ certKey conf = "" →
     EvLog LvlWarn ["No client key and certificate provided. Using auto-generated."]
       ∈ trace (after (NewHttpsClient conf) w)).
Proof.
  unfold value, after. rewrite NewHttpsClient_steps.
  trust_cases zero_httpsClient conf w; try discriminate.
  - match goal with |- context [initClientCert ?c conf ?w1] => cert_cases c conf w1 end;
      try discriminate; intros _; (split; [intros _|intros Hp]);
      rewrite ?elem_of_cons; auto.
    destruct Hp; contradiction.
  - case_bool_decide as Hcerts; cbn [fst snd streams trace]; try discriminate.
    match goal with |- context [initClientCert ?c conf ?w1] => cert_cases c conf w1 end;
      try discriminate; intros _; (split; [intros Hp; contradiction|intros Hp]);
      rewrite ?elem_of_cons; auto.
    destruct Hp; contradiction.
Qed.

(** X5.  When the server certificate cannot be used, construction stops
    there: the file is read (and, if it was read, parsed) and nothing else
    happens; the client key pair is not loaded and no warning is logged. *)
Theorem failed_trust_stops_construction (conf : httpsClientConfig) (w : World) :
  serverCert conf ≠ "" →
  (∀ err, ioutil_ReadFile (serverCert conf) = Err err →
     NewHttpsClient conf w =
       (None, mkWorld (streams w) (EvReadFile (serverCert conf) :: trace w))) ∧
  (∀ pem, ioutil_ReadFile (serverCert conf) = Ok pem → pem_certificates pem = [] →
     NewHttpsClient conf w =
       (None, mkWorld (streams w)
                (EvAppendCertsFromPEM pem :: EvReadFile (serverCert conf) :: trace w))).
Proof.
  intros Hpath. split.
  - intros err Herr. rewrite NewHttpsClient_steps.
    trust_cases zero_httpsClient conf w; try contradiction; [reflexivity|congruence].
  - intros pem Hpem Hcerts. rewrite NewHttpsClient_steps.
    trust_cases zero_httpsClient conf w; try contradiction; [congruence|].
    assert (pem0 = pem) as -> by congruence.
    rewrite bool_decide_eq_true_2 by assumption. reflexivity.
Qed.

(** X6.  When both client paths are given and the key pair does not load,
    [initClientCert] returns [errorLoadingClientCertificate] whatever the
    error of the loading was, and leaves the client as it was; no client is
    constructed. *)
Theorem client_certificate_failure (conf : httpsClientConfig) (w : World)
    (c : httpsClient) (err : error) :
  certFile conf ≠ "" → certKey conf ≠ "" →
  tls_LoadX509KeyPair (certFile conf) (certKey conf) = Err err →
  value (initClientCert c conf) w = (c, Some errorLoadingClientCertificate) ∧
  value (NewHttpsClient conf) w = None ∧
  receiver (value (NewUpdater conf) w) = None.
Proof.
  intros Hf Hk Hload.
  assert (Hnil : value (NewHttpsClient conf) w = None).
  { destruct (value (NewHttpsClient conf) w) as [c'|] eqn:Hc; [|reflexivity].
    assert (Hsome : is_Some (value (NewHttpsClient conf) w)) by (rewrite Hc; eauto).
    apply NewHttpsClient_succeeds in Hsome.
    destruct Hsome as [_ [?|[?|[cert Hcert]]]]; congruence. }
  split; [|split].
  - unfold value. cert_cases c conf w; [destruct Hpaths; contradiction|reflexivity|congruence].
  - exact Hnil.
  - unfold NewUpdater. rewrite bool_decide_eq_false_2.
    + cbv [value mbind M_bind mret M_ret] in *.
      destruct (NewHttpsClient conf w) as [p w']. cbn in *. rewrite Hnil. reflexivity.
    + intros ->. apply Hf. reflexivity.
Qed.

End Construction.

(** * Further properties of the requests and of the update check *)

Ltac crunch_all :=
  repeat (case_match; cbn [fst snd streams trace] in *; simplify_eq);
  cbn [fst snd streams trace] in *.

Section Requests.

Context {P : Platform}.

(** The handle of a response is new: no stream was there before the
    request. *)
Lemma makeAndSendRequest_fresh (c : httpClient) (method url : string)
    (w : World) (r : http_Response) :
  value (makeAndSendRequest c method url) w = Ok r →
  streams w !! Body r = None.
Proof.
  run_client.
  destruct (http_NewRequest method url) as [req|e1];
    cbn [fst snd streams trace]; [|discriminate].
  destruct (http_RoundTrip (HTTPClient c) req) as [rep|e2];
    cbn [fst snd streams trace]; [|discriminate].
  intros [= <-]. cbn [Body]. apply not_elem_of_dom. apply is_fresh.
Qed.

(** The trace of a request: the request is built, and if it is built it is
    logged and sent once. *)
Lemma makeAndSendRequest_trace (c : httpClient) (method url : string) (w : World) :
  trace (after (makeAndSendRequest c method url) w) =
    match http_NewRequest method url with
    | Ok req =>
        EvDo req :: EvLog LvlDebug ["Sending HTTP ["; method; "] request: "; url]
        :: EvNewRequest method url :: trace w
    | Err _ => EvNewRequest method url :: trace w
    end.
Proof.
  run_client.
  destruct (http_NewRequest method url) as [req|e1];
    cbn [fst snd streams trace]; [|reflexivity].
  destruct (http_RoundTrip (HTTPClient c) req) as [rep|e2]; reflexivity.
Qed.

(** On the streams, [processUpdateResponse] does what reading the body
    does. *)
Lemma processUpdateResponse_streams (response : http_Response) (w : World) :
  streams (after (processUpdateResponse response) w) =
    streams (after (ioutil_ReadAll (Body response)) w).
Proof. run_client. crunch_all; reflexivity. Qed.

(** [processUpdateResponse] makes no round trip and closes nothing. *)
Lemma processUpdateResponse_count_Do (response : http_Response) (w : World) :
  count is_Do (trace (after (processUpdateResponse response) w)) = count is_Do (trace w).
Proof. run_client. crunch_all; reflexivity. Qed.

(** Reading one body leaves the other streams as they are. *)
Lemma ioutil_ReadAll_other (h h' : handle) (w : World) :
  h' ≠ h → streams (after (ioutil_ReadAll h) w) !! h' = streams w !! h'.
Proof.
  intros Hne. run_client. crunch_all; try reflexivity.
  apply lookup_insert_ne. congruence.
Qed.

(** A failed request ends [GetScheduledUpdate]. *)
Lemma GetScheduledUpdate_failed (c : httpClient) (process : RequestProcessingFunc)
    (url : string) (w : World) (err : error) :
  value (makeAndSendRequest c http_MethodGet url) w = Err err →
  GetScheduledUpdate c process url w =
    ((iface_nil, Some err), after (makeAndSendRequest c http_MethodGet url) w).
Proof.
  cbv [GetScheduledUpdate value after mbind M_bind mret M_ret].
  destruct (makeAndSendRequest c http_MethodGet url w) as [[r|e] w'];
    cbn [fst snd]; [discriminate|]. congruence.
Qed.

(** X7.  The client calls [client.Do] once: the update check and
    [FetchUpdate] each call it exactly once when the request can be built
    and not at all when it cannot, and never call it a second time, whatever
    it returned.  The redirects that [Do] follows and the resending it does
    inside are not the client's and are not counted. *)
Theorem one_Do_per_call (c : httpClient) (url : string) (w : World) :
  count is_Do (trace (after (GetScheduledUpdate c processUpdateResponse url) w)) =
    (count is_Do (trace w) +
     match http_NewRequest http_MethodGet url with Ok _ => 1 | Err _ => 0 end)%nat ∧
  count is_Do (trace (after (FetchUpdate c url) w)) =
    (count is_Do (trace w) +
     match http_NewRequest http_MethodGet url with Ok _ => 1 | Err _ => 0 end)%nat.
Proof.
  assert (Hreq : count is_Do (trace (after (makeAndSendRequest c http_MethodGet url) w)) =
            (count is_Do (trace w) +
             match http_NewRequest http_MethodGet url with Ok _ => 1 | Err _ => 0 end)%nat).
  { rewrite makeAndSendRequest_trace.
    destruct (http_NewRequest http_MethodGet url); cbn; lia. }
  split.
  - destruct (value (makeAndSendRequest c http_MethodGet url) w) as [r|err] eqn:Hr.
    + rewrite (GetScheduledUpdate_after c processUpdateResponse url w r Hr).
      cbn [trace count is_Do]. rewrite processUpdateResponse_count_Do. exact Hreq.
    + unfold after at 1.
      rewrite (GetScheduledUpdate_failed c processUpdateResponse url w err Hr).
      exact Hreq.
  - unfold after at 1. rewrite FetchUpdate_value. exact Hreq.
Qed.

(** X8.  A call leaves the bodies of other responses alone: every stream
    that was there before an update check or a [FetchUpdate] is there
    afterwards, unchanged. *)
Theorem other_streams_untouched (c : httpClient) (url : string) (w : World)
    (h : handle) (s : Stream) :
  streams w !! h = Some s →
  streams (after (GetScheduledUpdate c processUpdateResponse url) w) !! h = Some s ∧
  streams (after (FetchUpdate c url) w) !! h = Some s.
Proof.
  intros Hs.
  assert (Hreq : streams (after (makeAndSendRequest c http_MethodGet url) w) !! h = Some s).
  { destruct (value (makeAndSendRequest c http_MethodGet url) w) as [r|err] eqn:Hr.
    - destruct (makeAndSendRequest_success c http_MethodGet url w r Hr)
        as (req & rep & _ & _ & _ & _ & ->).
      rewrite lookup_insert_ne; [exact Hs|].
      intros Heq. pose proof (makeAndSendRequest_fresh c http_MethodGet url w r Hr).
      congruence.
    - destruct (makeAndSendRequest_failure c http_MethodGet url w err Hr) as [-> _].
      exact Hs. }
  split.
  - destruct (value (makeAndSendRequest c http_MethodGet url) w) as [r|err] eqn:Hr.
    + assert (Hne : h ≠ Body r).
      { intros ->. pose proof (makeAndSendRequest_fresh c http_MethodGet url w r Hr).
        congruence. }
      rewrite (GetScheduledUpdate_after c processUpdateResponse url w r Hr).
      cbn [streams]. rewrite lookup_alter_ne by congruence.
      rewrite processUpdateResponse_streams, ioutil_ReadAll_other by exact Hne.
      exact Hreq.
    + unfold after at 1.
      rewrite (GetScheduledUpdate_failed c processUpdateResponse url w err Hr).
      exact Hreq.
  - unfold after at 1. rewrite FetchUpdate_value. exact Hreq.
Qed.


(** X10.  When [FetchUpdate] returns no error, it returns the body of the
    response and its declared length, and that length is neither negative
    nor below the threshold of the client; for a client that construction
    handed out it is at least 4096. *)
Theorem FetchUpdate_success (c : httpClient) (url : string) (w : World) :
  snd (value (FetchUpdate c url) w) = None →
  ∃ r, value (makeAndSendRequest c http_MethodGet url) w = Ok r ∧
       value (FetchUpdate c url) w = (Some (Body r), ContentLength r, None) ∧
       0 ≤ ContentLength r ∧ minImageSize c ≤ ContentLength r ∧
       (∀ conf w0, receiver (value (NewUpdater conf) w0) = Some c →
                   4096 ≤ ContentLength r).
Proof.
  unfold value at 1 3. rewrite FetchUpdate_value. cbn [fst].
  destruct (value (makeAndSendRequest c http_MethodGet url) w) as [r|err];
    [|discriminate].
  destruct (ContentLength r <? 0) eqn:Hneg; [discriminate|].
  destruct (ContentLength r <? minImageSize c) eqn:Hsmall; [discriminate|].
  intros _. exists r. apply Z.ltb_ge in Hneg, Hsmall.
  repeat split; try assumption.
  intros conf w0 Hc. apply NewUpdater_minImageSize in Hc.
  unfold minimumImageSize in Hc. lia.
Qed.

(** A body that cannot be read ends [processUpdateResponse]. *)
Lemma processUpdateResponse_read_error (response : http_Response) (w : World)
    (body : bytes) (err : error) :
  value (ioutil_ReadAll (Body response)) w = (body, Some err) →
  value (processUpdateResponse response) w = (iface_nil, Some err).
Proof.
  run_client. case_stream w (Body response); intros Heq; inversion Heq as [[Hb Hf]];
    rewrite ?Hf; reflexivity.
Qed.

(** X11.  A descriptor that [processUpdateResponse] returns is never
    incomplete and never comes with an error: the status code was 200, the
    body was read without error, the descriptor is what the decoder made of
    that body, and its four strings are not empty. *)
Theorem returned_descriptor_is_complete (response : http_Response) (w : World)
    (data : UpdateResponse) (err : option error) :
  value (processUpdateResponse response) w = (iface_UpdateResponse data, err) →
  err = None ∧
  StatusCode response = updateResponseHaveUpdate ∧
  (ID data ≠ "" ∧ Image_ID (Image data) ≠ "" ∧
   Checksum (Image data) ≠ "" ∧ URI (Image data) ≠ "") ∧
  ∃ body, value (ioutil_ReadAll (Body response)) w = (body, None) ∧
          json_Unmarshal body new_UpdateResponse = (data, None).
Proof.
  intros Hrun.
  destruct (value (ioutil_ReadAll (Body response)) w) as [body readErr] eqn:Hread.
  destruct readErr as [e|].
  { rewrite (processUpdateResponse_read_error response w body e Hread) in Hrun.
    discriminate. }
  revert Hrun. run_client.
  case_stream w (Body response); try discriminate.
  injection Hread as -> Hfault. rewrite Hfault. cbn [fst snd streams trace].
  destruct (StatusCode response =? updateResponseHaveUpdate) eqn:Hcode.
  - apply Z.eqb_eq in Hcode.
    destruct (json_Unmarshal body new_UpdateResponse) as [d [e|]] eqn:Hjson;
      cbn [fst snd streams trace].
    + destruct e; cbn [fst snd streams trace]; intros Hrun; discriminate Hrun.
    + destruct (bool_decide (ID d ≠ "")) eqn:H1; cbn [andb fst snd]; [|intros Hrun; discriminate Hrun].
      destruct (bool_decide (Image_ID (Image d) ≠ "")) eqn:H2; cbn [andb fst snd];
        [|intros Hrun; discriminate Hrun].
      destruct (bool_decide (Checksum (Image d) ≠ "")) eqn:H3; cbn [andb fst snd];
        [|intros Hrun; discriminate Hrun].
      destruct (bool_decide (URI (Image d) ≠ "")) eqn:H4; cbn [andb fst snd];
        [|intros Hrun; discriminate Hrun].
      intros [= -> <-].
      apply bool_decide_eq_true_1 in H1, H2, H3, H4.
      split; [reflexivity|]. split; [exact Hcode|]. split; [auto|].
      exists body. auto.
  - crunch_all; intros Hrun; discriminate Hrun.
Qed.

(** The three outcomes of [processUpdateResponse]. *)
Lemma processUpdateResponse_outcomes (response : http_Response) (w : World) :
  (∃ data, value (processUpdateResponse response) w = (iface_UpdateResponse data, None) ∧
           ID data ≠ "" ∧ Image_ID (Image data) ≠ "" ∧
           Checksum (Image data) ≠ "" ∧ URI (Image data) ≠ "") ∨
  value (processUpdateResponse response) w = (iface_nil, None) ∨
  (∃ err, value (processUpdateResponse response) w = (iface_nil, Some err)).
Proof.
  run_client. crunch_all; eauto.
  left. eexists. split; [reflexivity|].
  match goal with
  | H : _ && _ && _ && _ = true |- _ =>
      rewrite !andb_true_iff in H; destruct H as [[[Ha Hb] Hc] Hd];
      apply bool_decide_eq_true_1 in Ha, Hb, Hc, Hd; auto
  end.
Qed.

(** X12.  An update check has one of three outcomes, whatever the server
    and the decoder do: a descriptor whose four strings are not empty, with
    no error; nil with no error; or nil with an error.  It never returns a
    descriptor together with an error, nor an incomplete one. *)
Theorem update_check_outcomes (c : httpClient) (url : string) (w : World) :
  (∃ data, value (GetScheduledUpdate c processUpdateResponse url) w
             = (iface_UpdateResponse data, None) ∧
           ID data ≠ "" ∧ Image_ID (Image data) ≠ "" ∧
           Checksum (Image data) ≠ "" ∧ URI (Image data) ≠ "") ∨
  value (GetScheduledUpdate c processUpdateResponse url) w = (iface_nil, None) ∨
  (∃ err, value (GetScheduledUpdate c processUpdateResponse url) w
            = (iface_nil, Some err)).
Proof.
  destruct (value (makeAndSendRequest c http_MethodGet url) w) as [r|err] eqn:Hr.
  - rewrite (GetScheduledUpdate_value c processUpdateResponse url w r Hr).
    apply processUpdateResponse_outcomes.
  - right. right. exists err. unfold value.
    rewrite (GetScheduledUpdate_failed c processUpdateResponse url w err Hr).
    reflexivity.
Qed.

(** X13.  [processUpdateResponse] reports that there is no update (nil, no
    error) exactly when the body was read without error and the status code
    is 204. *)
Theorem no_update_only_on_204 (response : http_Response) (w : World) :
  value (processUpdateResponse response) w = (iface_nil, None) ↔
    snd (value (ioutil_ReadAll (Body response)) w) = None ∧
    StatusCode response = updateResponseNoUpdates.
Proof.
  run_client. split.
  - crunch_all; intros Hrun; try discriminate Hrun;
      repeat match goal with
             | H : (_ =? _) = true |- _ => apply Z.eqb_eq in H
             end; auto.
  - intros [Hread Hcode]. rewrite Hcode. revert Hread.
    crunch_all; intros Hread; try discriminate Hread; reflexivity.
Qed.

(** X14.  The decoder is called once when the body was read without error
    and the status code is 200, and not at all otherwise. *)
Theorem decoder_called_only_on_200 (response : http_Response) (w : World) :
  count is_Unmarshal (trace (after (processUpdateResponse response) w)) =
    (count is_Unmarshal (trace w) +
     match snd (value (ioutil_ReadAll (Body response)) w) with
     | None => if (StatusCode response =? updateResponseHaveUpdate)%Z then 1 else 0
     | Some _ => 0
     end)%nat.
Proof.
  run_client. crunch_all; cbn [count is_Unmarshal]; lia.
Qed.

(** X15.  [processUpdateResponse] reads the body to the end and does not
    close it: an open body is left open with nothing pending, whatever is
    returned, so that a second reading gives no data; the closing is left
    to the caller. *)
Theorem processUpdateResponse_drains_body (response : http_Response) (w : World)
    (s : Stream) :
  streams w !! Body response = Some s →
  closed s = false →
  streams (after (processUpdateResponse response) w) =
    <[Body response := mkStream [] (fault s) false]> (streams w) ∧
  value (ioutil_ReadAll (Body response)) (after (processUpdateResponse response) w) =
    ([], fault s).
Proof.
  intros Hs Hc.
  assert (Hstreams : streams (after (processUpdateResponse response) w) =
            <[Body response := mkStream [] (fault s) false]> (streams w)).
  { rewrite processUpdateResponse_streams. run_client. rewrite Hs, Hc. reflexivity. }
  split; [exact Hstreams|].
  rewrite (ioutil_ReadAll_open (Body response) _ (mkStream [] (fault s) false));
    [reflexivity| |reflexivity].
  rewrite Hstreams. apply lookup_insert_eq.
Qed.

(** X16.  [GetScheduledUpdate] passes to the processing function, whatever
    it is, a response with the status, the status code and the length of the
    reply and with a body that is new, open and unread, and returns what the
    function returns, error included. *)
Theorem processing_function_gets_unread_body (c : httpClient)
    (process : RequestProcessingFunc) (url : string) (w : World)
    (req : http_Request) (rep : ServerReply) :
  http_NewRequest http_MethodGet url = Ok req →
  http_RoundTrip (HTTPClient c) req = Ok rep →
  ∃ r,
    value (GetScheduledUpdate c process url) w =
      value (process r) (after (makeAndSendRequest c http_MethodGet url) w) ∧
    Status r = reply_Status rep ∧
    StatusCode r = reply_StatusCode rep ∧
    ContentLength r = reply_ContentLength rep ∧
    streams w !! Body r = None ∧
    streams (after (makeAndSendRequest c http_MethodGet url) w) !! Body r =
      Some (mkStream (reply_body rep) (reply_fault rep) false).
Proof.
  intros Hreq Hrep.
  assert (Hr : ∃ r, value (makeAndSendRequest c http_MethodGet url) w = Ok r ∧
                    Status r = reply_Status rep).
  { run_client. rewrite Hreq. cbn [fst snd streams trace]. rewrite Hrep.
    cbn [fst snd streams trace]. eexists. split; reflexivity. }
  destruct Hr as (r & Hr & Hstatus). exists r.
  destruct (makeAndSendRequest_success c http_MethodGet url w r Hr)
    as (req' & rep' & Hreq' & Hrep' & Hcode & Hlen & Hstreams).
  assert (req' = req) as -> by congruence.
  assert (rep' = rep) as -> by congruence.
  split; [exact (GetScheduledUpdate_value c process url w r Hr)|].
  split; [exact Hstatus|]. split; [exact Hcode|]. split; [exact Hlen|].
  split; [exact (makeAndSendRequest_fresh c http_MethodGet url w r Hr)|].
  rewrite Hstreams. apply lookup_insert_eq.
Qed.

End Requests.

(** * The further properties on the scripted platform *)

Lemma NewHttpsClient_shape_witness :
  Transport (HTTPClient (embedded_httpClient scripted_tls_client)) =
    Some (mkTransport
            (Some (mkTlsConfig
                     (Some (trustedCerts (embedded_httpsClientAuthCreds scripted_tls_client)))
                     [clientCert (embedded_httpsClientAuthCreds scripted_tls_client)]))).
Proof.
  apply (@NewHttpsClient_shape scripted conf_with_certificate emptyWorld
           scripted_tls_client); reflexivity.
Defined.

Lemma trusted_certificates_from_file_witness :
  ∃ pem, @ioutil_ReadFile scripted (serverCert conf_with_certificate) = Ok pem ∧
    Subjects (trustedCerts (embedded_httpsClientAuthCreds scripted_tls_client)) ≠ [] ∧
    (∀ cert, cert ∈ pool_certs (trustedCerts (embedded_httpsClientAuthCreds scripted_tls_client)) →
             cert ∈ @pem_certificates scripted pem) ∧
    (∀ cert, cert ∈ @pem_certificates scripted pem →
             ∃ cert', cert' ∈ pool_certs (trustedCerts (embedded_httpsClientAuthCreds scripted_tls_client)) ∧
                      Raw cert' = Raw cert).
Proof.
  apply (@trusted_certificates_from_file scripted conf_with_certificate emptyWorld
           scripted_tls_client); [reflexivity|discriminate].
Defined.

Lemma missing_material_is_logged_witness :
  EvLog LvlWarn ["No client key and certificate provided. Using auto-generated."]
    ∈ trace (after (@NewHttpsClient scripted conf_with_certificate) emptyWorld).
Proof.
  apply (@missing_material_is_logged scripted conf_with_certificate emptyWorld
           scripted_tls_client); [reflexivity|left; reflexivity].
Defined.

Lemma failed_trust_stops_construction_witness :
  @NewHttpsClient scripted conf_missing_file emptyWorld =
    (None, mkWorld ∅ [EvReadFile "/etc/mender/missing.crt"]).
Proof.
  destruct (@failed_trust_stops_construction scripted conf_missing_file emptyWorld)
    as [Hunread _]; [discriminate|].
  exact (Hunread errNoSuchFile eq_refl).
Defined.

Lemma client_certificate_failure_witness :
  value (@initClientCert scripted zero_httpsClient conf_bad_keypair) emptyWorld =
    (zero_httpsClient, Some errorLoadingClientCertificate).
Proof.
  apply (@client_certificate_failure scripted conf_bad_keypair emptyWorld zero_httpsClient
           (foreignError "crypto/tls" "tls: failed to find any PEM data in certificate input"));
    [discriminate|discriminate|reflexivity].
Defined.

Lemma other_streams_untouched_witness :
  streams (after (@GetScheduledUpdate scripted NewHttpClient (@processUpdateResponse scripted)
                    "http://srv/update")
             (one_stream (bytes_of "image") None)) !! 0%nat
    = Some (mkStream (bytes_of "image") None false).
Proof.
  apply (@other_streams_untouched scripted NewHttpClient "http://srv/update"
           (one_stream (bytes_of "image") None) 0%nat); reflexivity.
Defined.


Lemma FetchUpdate_success_witness :
  ∃ r, value (@makeAndSendRequest scripted NewHttpClient http_MethodGet "http://srv/image")
             emptyWorld = Ok r ∧
       value (@FetchUpdate scripted NewHttpClient "http://srv/image") emptyWorld
         = (Some (Body r), ContentLength r, None) ∧
       0 ≤ ContentLength r ∧ minImageSize NewHttpClient ≤ ContentLength r ∧
       (∀ conf w0, receiver (value (@NewUpdater scripted conf) w0) = Some NewHttpClient →
                   4096 ≤ ContentLength r).
Proof.
  apply (@FetchUpdate_success scripted NewHttpClient "http://srv/image" emptyWorld);
    reflexivity.
Defined.

Lemma returned_descriptor_is_complete_witness :
  StatusCode response_update = updateResponseHaveUpdate ∧
  (ID descriptor_u1 ≠ "" ∧ Image_ID (Image descriptor_u1) ≠ "" ∧
   Checksum (Image descriptor_u1) ≠ "" ∧ URI (Image descriptor_u1) ≠ "") ∧
  ∃ body, value (ioutil_ReadAll (Body response_update))
                (one_stream (bytes_of body_complete) None) = (body, None) ∧
          @json_Unmarshal scripted body new_UpdateResponse = (descriptor_u1, None).
Proof.
  apply (@returned_descriptor_is_complete scripted response_update
           (one_stream (bytes_of body_complete) None) descriptor_u1 None);
    reflexivity.
Defined.

Lemma processUpdateResponse_drains_body_witness :
  value (ioutil_ReadAll (Body response_update))
        (after (@processUpdateResponse scripted response_update)
               (one_stream (bytes_of body_complete) None))
    = ([], None).
Proof.
  apply (@processUpdateResponse_drains_body scripted response_update
           (one_stream (bytes_of body_complete) None)
           (mkStream (bytes_of body_complete) None false)); reflexivity.
Defined.

Lemma processing_function_gets_unread_body_witness :
  ∃ r,
    value (@GetScheduledUpdate scripted NewHttpClient leak_body "http://srv/update") emptyWorld =
      value (leak_body r)
            (after (@makeAndSendRequest scripted NewHttpClient http_MethodGet "http://srv/update")
                   emptyWorld) ∧
    Status r = "200 OK" ∧ StatusCode r = 200 ∧ ContentLength r = 69 ∧
    streams emptyWorld !! Body r = None ∧
    streams (after (@makeAndSendRequest scripted NewHttpClient http_MethodGet "http://srv/update")
                   emptyWorld) !! Body r =
      Some (mkStream (bytes_of body_complete) None false).
Proof.
  apply (@processing_function_gets_unread_body scripted NewHttpClient leak_body
           "http://srv/update" emptyWorld (mkRequest "GET" "http://srv/update")
           (mkReply "200 OK" 200 69 (bytes_of body_complete) None)); reflexivity.
Defined.
